(** * SiteSwift: the credit-metered generation pipeline of
      [server/controllers/userController.ts]

    A shallow embedding of the controller functions [getUserCredits],
    [createUserProject] and [getUserProject], of the Prisma store they work
    on and of the string operations they apply to the model's output,
    followed by the properties the specification states about them. *)

From stdpp Require Import gmap strings list fin_maps sorting pretty.
From Stdlib Require Import ZArith NArith Lia.

Open Scope Z_scope.

(** ** JavaScript strings

    A JavaScript string is a sequence of UTF-16 code units; [length],
    [substring], [trim] and the regular expressions of the controller all work
    on code units. *)

Module JsString.

Abbreviation code_unit := N.
Abbreviation t := (list N).

(** The code units of an ASCII literal of the source. *)
Definition lit (s : string) : t :=
  map Ascii.N_of_ascii (String.list_ascii_of_string s).

Definition backtick : code_unit := 96%N.
Definition newline : code_unit := 10%N.
Definition dquote : code_unit := 34%N.

(** [WhiteSpace] and [LineTerminator] of ECMAScript, the code units that
    [String.prototype.trim] removes. *)
Definition is_space (c : code_unit) : bool :=
  ((9 <=? c) && (c <=? 13) || (c =? 32) || (c =? 160) || (c =? 5760)
   || (8192 <=? c) && (c <=? 8202) || (c =? 8232) || (c =? 8233)
   || (c =? 8239) || (c =? 8287) || (c =? 12288) || (c =? 65279))%N.

(** The class [[a-z]] under the [i] flag (no [u] flag): ASCII letters of
    either case. *)
Definition is_letter (c : code_unit) : bool :=
  ((65 <=? c) && (c <=? 90) || (97 <=? c) && (c <=? 122))%N.

Fixpoint drop_while (p : code_unit -> bool) (s : t) : t :=
  match s with
  | [] => []
  | c :: r => if p c then drop_while p r else s
  end.

Fixpoint count_while (p : code_unit -> bool) (s : t) : nat :=
  match s with
  | [] => 0%nat
  | c :: r => if p c then S (count_while p r) else 0%nat
  end.

Definition trimStart (s : t) : t := drop_while is_space s.
Definition trimEnd (s : t) : t := rev (drop_while is_space (rev s)).

(** [s.trim()] *)
Definition trim (s : t) : t := trimEnd (trimStart s).

(** [s.substring(0, n)] for [0 <= n]. *)
Definition substring0 (n : nat) (s : t) : t := take n s.

(** A value used as a condition: the empty string is falsy. *)
Definition truthy (s : t) : bool :=
  match s with [] => false | _ => true end.

(** *** Regular expressions

    A pattern is embedded as its matcher anchored at the head of the rest of
    the input: [Some n] when the pattern matches there, [n] being the length
    of the match. Both patterns of the controller match at least three code
    units, so the empty-match rule of [replace] never applies. *)
Definition matcher := t -> option nat.

(** [s.replace(re, "")] for a pattern with the [g] flag: the matches are
    found from left to right, each search starting where the last match
    ended, and every match is removed. [skip] counts the code units of the
    current match still to be removed. *)
Fixpoint replace_from (re : matcher) (skip : nat) (s : t) : t :=
  match s with
  | [] => []
  | c :: r =>
      match skip with
      | S k => replace_from re k r
      | O =>
          match re s with
          | Some n => replace_from re (Nat.pred n) r
          | None => c :: replace_from re 0 r
          end
      end
  end.

Definition replace_all (re : matcher) (s : t) : t := replace_from re 0 s.

Definition opt_newline (s : t) : nat :=
  match s with
  | c :: _ => if (c =? newline)%N then 1%nat else 0%nat
  | [] => 0%nat
  end.

(** [/```[a-z]*\n?/gi]: three backticks, then as many letters as there are
    (the star is greedy and nothing after it can fail), then a newline when
    one follows. *)
Definition re_fence_open : matcher := fun s =>
  match s with
  | a :: b :: c :: r =>
      if ((a =? backtick) && (b =? backtick) && (c =? backtick))%N
      then let k := count_while is_letter r in
           Some (3 + k + opt_newline (drop k r))%nat
      else None
  | _ => None
  end.

(** [/```$/g]: three backticks at the end of the input (no [m] flag, so [$]
    is the end of the string only). *)
Definition re_fence_end : matcher := fun s =>
  match s with
  | [a; b; c] =>
      if ((a =? backtick) && (b =? backtick) && (c =? backtick))%N
      then Some 3%nat else None
  | _ => None
  end.

(** A Markdown code fence, and what it is for [s] to hold one. *)
Definition fence : t := [backtick; backtick; backtick].

Definition has_fence (s : t) : Prop :=
  exists l1 l2, s = l1 ++ fence ++ l2.

(** The number of backticks [s] starts with. *)
Definition lead (s : t) : nat := count_while (fun c => (c =? backtick)%N) s.

(** [s] contains no run of three backticks. *)
Fixpoint no_fence (s : t) : bool :=
  match s with
  | [] => true
  | _ :: r => (lead s <? 3)%nat && no_fence r
  end.

Definition starts_space (s : t) : bool :=
  match s with c :: _ => is_space c | [] => false end.

Definition ends_space (s : t) : bool := starts_space (rev s).

End JsString.

Abbreviation jsstring := JsString.t.

(** ** Output sanitisation (lines 109-113 of the controller)

<<
    const cleaned = raw
      .replace(/```[a-z]*\n?/gi, "")
      .replace(/```$/g, "")
      .trim();
>> *)
Definition sanitize (raw : jsstring) : jsstring :=
  JsString.trim
    (JsString.replace_all JsString.re_fence_end
       (JsString.replace_all JsString.re_fence_open raw)).

(** Markup that is already clean: no fence and no white space at either
    end. *)
Definition clean (s : jsstring) : bool :=
  JsString.no_fence s && negb (JsString.starts_space s)
  && negb (JsString.ends_space s).

(** ** Errors and the outcome of a call that may throw *)

Record JsError := { err_code : option string; err_message : string }.

(** [error.code || error.message]: the code when there is one and it is not
    the empty string, the message otherwise. *)
Definition err_text (e : JsError) : string :=
  match err_code e with
  | Some c => if decide (c = "") then err_message e else c
  | None => err_message e
  end.

Inductive outcome (A : Type) : Type :=
| Ok (a : A)
| Throw (e : JsError).
Arguments Ok {A} a.
Arguments Throw {A} e.

(** ** The Prisma store

    Rows are kept as the controller sees them. Conversation entries and
    versions are kept in creation order, which is their [timestamp] order. *)

(** Modelled from the spec: the Prisma schema is not among the sources. The
    columns are those of the persisted state layout of the specification
    (Users, Projects, ConversationEntries, Versions); [current_code] is
    nullable until the first version; identifiers, which the database
    generates, are drawn from one counter of the store. *)
Record User := { credits : Z; totalCreation : Z }.

Record WebsiteProject := {
  p_userId : string;
  p_name : jsstring;
  p_initial_prompt : jsstring;
  current_code : option jsstring;
  current_version_index : option nat;
  isPublished : bool
}.

Inductive Role := RoleUser | RoleAssistant.

Record Conversation := {
  c_id : nat;
  c_role : Role;
  c_content : jsstring;
  c_projectId : nat
}.

Record Version := {
  v_id : nat;
  v_code : jsstring;
  v_description : jsstring;
  v_projectId : nat
}.

Record Store := {
  user : gmap string User;
  websiteProject : gmap nat WebsiteProject;
  conversation : list Conversation;
  version : list Version;
  next_id : nat
}.

(** The two requests sent to the completion service, by the text of their
    [user] message. *)
Inductive AiRequest :=
| Enhance (initial_prompt : jsstring)
| Generate (enhancedPrompt : jsstring).

(** What a run changes and what it leaves to be observed: the store, the lines
    written with [console.log] (one list of arguments per call) and the
    requests sent to the completion service, oldest first. *)
Record World := {
  db : Store;
  console : list (list string);
  ai_calls : list AiRequest
}.

(** The places of the controller where a store call is awaited. *)
Inductive Site :=
| CreditsFindUser      (* line 14 *)
| FindUser             (* line 36 *)
| CreateProject        (* line 44 *)
| IncTotalCreation     (* line 53 *)
| LogUserPrompt        (* line 58 *)
| Debit                (* line 63 *)
| LogEnhanced          (* line 89 *)
| LogStart             (* line 93 *)
| LogFailure           (* line 116 *)
| RefundEmpty          (* line 121 *)
| CreateVersion        (* line 129 *)
| UpdateProject        (* line 134 *)
| LogSuccess           (* line 139 *)
| RefundCatch          (* line 146 *)
| ProjectFind.         (* line 171 *)

(** The surroundings of one request: which store calls are rejected, and with
    what error, and what the completion service answers. An answer is the
    [content] of the first choice, [None] for [null]; [Throw] stands for a
    rejected call and for an answer without a first choice, on which the
    controller's property access throws. A rejected store call leaves the
    store as it was. *)
Record Env := {
  fault : Site -> option JsError;
  ai : AiRequest -> outcome (option jsstring)
}.

(** ** The monad of the controller: state and exceptions *)

Definition M (A : Type) : Type := World -> outcome A * World.

#[global] Instance M_ret : MRet M := fun A a w => (Ok a, w).

#[global] Instance M_bind : MBind M := fun A B f m w =>
  match m w with
  | (Ok a, w') => f a w'
  | (Throw e, w') => (Throw e, w')
  end.

Definition throw {A} (e : JsError) : M A := fun w => (Throw e, w).

(** [try { m } catch (e) { h e }] *)
Definition try_catch {A} (m : M A) (h : JsError -> M A) : M A := fun w =>
  match m w with
  | (Ok a, w') => (Ok a, w')
  | (Throw e, w') => h e w'
  end.

Definition get_db : M Store := fun w => (Ok (db w), w).

Definition put_db (s : Store) : M unit := fun w =>
  (Ok tt, {| db := s; console := console w; ai_calls := ai_calls w |}).

Definition console_log (args : list string) : M unit := fun w =>
  (Ok tt, {| db := db w; console := console w ++ [args];
             ai_calls := ai_calls w |}).

(** Prisma's error for [update] on a row that does not exist. *)
Definition record_not_found : JsError :=
  {| err_code := Some "P2025";
     err_message := "Record to update not found." |}.

(** The row of a project that has just been created. *)
Definition new_project (name initial_prompt : jsstring) (userId : string)
  : WebsiteProject :=
  {| p_userId := userId; p_name := name; p_initial_prompt := initial_prompt;
     current_code := None; current_version_index := None;
     isPublished := false |}.

Section Calls.

Variable env : Env.

(** A store call at [site] is rejected when the surroundings say so. *)
Definition await (site : Site) : M unit :=
  match fault env site with
  | Some e => throw e
  | None => mret tt
  end.

(** [openai.chat.completions.create(...)] followed by
    [.choices[0].message.content]. *)
Definition completion (rq : AiRequest) : M (option jsstring) := fun w =>
  let w' := {| db := db w; console := console w;
               ai_calls := ai_calls w ++ [rq] |} in
  (ai env rq, w').

(** [prisma.user.findUnique({ where: { id } })] *)
Definition user_findUnique (site : Site) (id : string) : M (option User) :=
  await site;; s ← get_db; mret (user s !! id).

(** [prisma.user.update({ where: { id }, data })] *)
Definition user_update (site : Site) (id : string) (f : User -> User)
  : M unit :=
  await site;;
  s ← get_db;
  match user s !! id with
  | None => throw record_not_found
  | Some u =>
      put_db {| user := <[id := f u]> (user s);
                websiteProject := websiteProject s;
                conversation := conversation s;
                version := version s;
                next_id := next_id s |}
  end.

(** [prisma.websiteProject.create({ data, select: { id: true } })] *)
Definition websiteProject_create (site : Site)
    (name initial_prompt : jsstring) (userId : string) : M nat :=
  await site;;
  s ← get_db;
  let id := next_id s in
  put_db {| user := user s;
            websiteProject :=
              <[id := new_project name initial_prompt userId]>
                (websiteProject s);
            conversation := conversation s;
            version := version s;
            next_id := S id |};;
  mret id.

(** [prisma.websiteProject.update({ where: { id }, data })] *)
Definition websiteProject_update (site : Site) (id : nat)
    (f : WebsiteProject -> WebsiteProject) : M unit :=
  await site;;
  s ← get_db;
  match websiteProject s !! id with
  | None => throw record_not_found
  | Some p =>
      put_db {| user := user s;
                websiteProject := <[id := f p]> (websiteProject s);
                conversation := conversation s;
                version := version s;
                next_id := next_id s |}
  end.

(** [prisma.conversation.create({ data: { role, content, projectId } })] *)
Definition conversation_create (site : Site) (role : Role)
    (content : jsstring) (projectId : nat) : M unit :=
  await site;;
  s ← get_db;
  put_db {| user := user s;
            websiteProject := websiteProject s;
            conversation :=
              conversation s ++
              [{| c_id := next_id s; c_role := role; c_content := content;
                  c_projectId := projectId |}];
            version := version s;
            next_id := S (next_id s) |}.

(** [prisma.version.create({ data, select: { id: true } })] *)
Definition version_create (site : Site) (code description : jsstring)
    (projectId : nat) : M nat :=
  await site;;
  s ← get_db;
  let id := next_id s in
  put_db {| user := user s;
            websiteProject := websiteProject s;
            conversation := conversation s;
            version :=
              version s ++
              [{| v_id := id; v_code := code; v_description := description;
                  v_projectId := projectId |}];
            next_id := S id |};;
  mret id.

End Calls.

(** ** Requests and responses *)

(** A project as [getUserProject] returns it, with its conversation and its
    versions in ascending [timestamp] order. *)
Record ProjectView := {
  view_id : nat;
  view_project : WebsiteProject;
  view_conversation : list Conversation;
  view_versions : list Version
}.

Inductive Body :=
| Message (message : string)
| CreditsBody (credits : Z)
| ProjectIdBody (projectId : nat)
| ProjectBody (project : option ProjectView).

Record Response := { status : nat; body : Body }.

(** [res.json(b)] and [res.status(n).json(b)] *)
Definition json (b : Body) : Response := {| status := 200; body := b |}.
Definition status_json (n : nat) (b : Body) : Response :=
  {| status := n; body := b |}.

(** [req.userId] when it is truthy: set by the middleware and not the empty
    string. *)
Definition authenticated (userId : option string) : option string :=
  match userId with
  | Some u => if decide (u = "") then None else Some u
  | None => None
  end.

(** What the detached task of [createUserProject] closes over. *)
Record Job := {
  job_userId : string;
  job_prompt : jsstring;
  job_projectId : nat
}.

Definition add_credits (n : Z) (u : User) : User :=
  {| credits := credits u + n; totalCreation := totalCreation u |}.

Definition add_totalCreation (n : Z) (u : User) : User :=
  {| credits := credits u; totalCreation := totalCreation u + n |}.

Definition set_current (code : jsstring) (versionId : nat)
    (p : WebsiteProject) : WebsiteProject :=
  {| p_userId := p_userId p; p_name := p_name p;
     p_initial_prompt := p_initial_prompt p;
     current_code := Some code;
     current_version_index := Some versionId;
     isPublished := isPublished p |}.

(** The name of a new project (line 46). *)
Definition project_name (initial_prompt : jsstring) : jsstring :=
  if (50 <? length initial_prompt)%nat
  then JsString.substring0 47 initial_prompt ++ JsString.lit "..."
  else initial_prompt.

(** [content?.trim() || initial_prompt] (line 87) *)
Definition enhanced_or (initial_prompt : jsstring)
    (content : option jsstring) : jsstring :=
  match content with
  | Some c =>
      if JsString.truthy (JsString.trim c) then JsString.trim c
      else initial_prompt
  | None => initial_prompt
  end.

(** An answer of the enhancement that counts for nothing: [null], or blank
    once trimmed. *)
Definition empty_answer (content : option jsstring) : bool :=
  match content with
  | Some c => negb (JsString.truthy (JsString.trim c))
  | None => true
  end.

Definition msg_enhanced (enhancedPrompt : jsstring) : jsstring :=
  JsString.lit "I've enhanced your prompt to: "
  ++ [JsString.dquote] ++ enhancedPrompt ++ [JsString.dquote].
Definition msg_start : jsstring :=
  JsString.lit "now generating your website...".
Definition msg_failure : jsstring :=
  JsString.lit "Unable to create the code. Please try again.".
Definition msg_success : jsstring :=
  JsString.lit
    "I've created your website! You can now preview it and request changes.".

Section Controller.

Variable env : Env.

(** *** [getUserCredits] (lines 7-24) *)
Definition getUserCredits (userId : option string) : M Response :=
  try_catch
    (match authenticated userId with
     | None => mret (status_json 401 (Message "Unauthorized user"))
     | Some uid =>
         u ← user_findUnique env CreditsFindUser uid;
         mret (json (CreditsBody
                       (match u with Some u => credits u | None => 0 end)))
     end)
    (fun error =>
       console_log [err_text error];;
       mret (status_json 500 (Message (err_message error)))).

(** *** [createUserProject], the detached task (lines 72-151) *)
Definition generation (j : Job) : M unit :=
  content ← completion env (Enhance (job_prompt j));
  let enhancedPrompt := enhanced_or (job_prompt j) content in
  conversation_create env LogEnhanced RoleAssistant
    (msg_enhanced enhancedPrompt) (job_projectId j);;
  conversation_create env LogStart RoleAssistant msg_start
    (job_projectId j);;
  content ← completion env (Generate enhancedPrompt);
  let raw := default [] content in
  let cleaned := sanitize raw in
  if negb (JsString.truthy cleaned) then
    conversation_create env LogFailure RoleAssistant msg_failure
      (job_projectId j);;
    user_update env RefundEmpty (job_userId j) (add_credits 5)
  else
    versionId ← version_create env CreateVersion cleaned
                  (JsString.lit "Initial Version") (job_projectId j);
    websiteProject_update env UpdateProject (job_projectId j)
      (set_current cleaned versionId);;
    conversation_create env LogSuccess RoleAssistant msg_success
      (job_projectId j).

Definition background (j : Job) : M unit :=
  try_catch (generation j)
    (fun e =>
       console_log ["Background generation failed:"; err_text e];;
       try_catch (user_update env RefundCatch (job_userId j) (add_credits 5))
         (fun _ => mret tt)).

(** *** [createUserProject], up to the response (lines 27-69)

    The result is the response together with the task that was started, if
    one was. *)
Definition createUserProject_sync (userId : option string)
    (initial_prompt : option jsstring) : M (Response * option Job) :=
  try_catch
    (match authenticated userId with
     | None => mret (status_json 401 (Message "Unauthorized user"), None)
     | Some uid =>
     match initial_prompt with
     | None =>
         mret (status_json 400 (Message "initial_prompt is required"), None)
     | Some prompt =>
     if negb (JsString.truthy (JsString.trim prompt)) then
       mret (status_json 400 (Message "initial_prompt is required"), None)
     else
       u ← user_findUnique env FindUser uid;
       match u with
       | None => mret (status_json 401 (Message "User not found"), None)
       | Some u =>
       if credits u <? 5 then
         mret (status_json 403
                 (Message "Add credits to create more projects"), None)
       else
         projectId ← websiteProject_create env CreateProject
                       (project_name prompt) prompt uid;
         user_update env IncTotalCreation uid (add_totalCreation 1);;
         conversation_create env LogUserPrompt RoleUser prompt projectId;;
         user_update env Debit uid (add_credits (-5));;
         mret (json (ProjectIdBody projectId),
               Some {| job_userId := uid; job_prompt := prompt;
                       job_projectId := projectId |})
       end
     end
     end)
    (fun error =>
       console_log [err_text error];;
       mret (status_json 500 (Message (err_message error)), None)).

(** *** [createUserProject]: the response is sent, then the detached task
    runs. It is run here to its end before anything else touches the store;
    the response does not depend on it. *)
Definition createUserProject (userId : option string)
    (initial_prompt : option jsstring) : M Response :=
  r ← createUserProject_sync userId initial_prompt;
  match r.2 with
  | Some j => background j;; mret r.1
  | None => mret r.1
  end.

(** *** [getUserProject] (lines 162-184) *)

(** [prisma.websiteProject.findUnique({ where: { id, userId }, include })] *)
Definition websiteProject_findUnique (site : Site) (id : nat)
    (userId : string) : M (option ProjectView) :=
  await env site;;
  s ← get_db;
  mret (match websiteProject s !! id with
        | Some p =>
            if decide (p_userId p = userId) then
              Some {| view_id := id; view_project := p;
                      view_conversation :=
                        filter (fun c => c_projectId c = id)
                          (conversation s);
                      view_versions :=
                        filter (fun v => v_projectId v = id) (version s) |}
            else None
        | None => None
        end).

Definition getUserProject (userId : option string) (projectId : nat)
  : M Response :=
  try_catch
    (match authenticated userId with
     | None => mret (status_json 401 (Message "Unauthorized user"))
     | Some uid =>
         project ← websiteProject_findUnique ProjectFind projectId uid;
         mret (json (ProjectBody project))
     end)
    (fun error =>
       console_log [err_text error];;
       mret (status_json 500 (Message (err_message error)))).

End Controller.

(** ** Observations on a store *)

Definition balance (w : World) (userId : string) : option Z :=
  credits <$> user (db w) !! userId.

Definition versions_of (w : World) (projectId : nat) : list Version :=
  filter (fun v => v_projectId v = projectId) (version (db w)).

Definition entries_of (w : World) (projectId : nat) : list Conversation :=
  filter (fun c => c_projectId c = projectId) (conversation (db w)).

Definition project_of (w : World) (projectId : nat) : option WebsiteProject :=
  websiteProject (db w) !! projectId.

(** Every row that refers to a project refers to an identifier already drawn
    from the counter. *)
Definition store_wf (s : Store) : bool :=
  forallb (fun v => (v_projectId v <? next_id s)%nat) (version s)
  && forallb (fun c => (c_projectId c <? next_id s)%nat) (conversation s).

(** No store call is rejected, and both completions answer. *)
Definition no_fault (env : Env) : Prop :=
  (forall site, fault env site = None) /\
  (forall rq, exists content, ai env rq = Ok content).

(** ** What the specification speaks of, read off the store *)

(** A version exists for the project of the task. *)
Definition version_persisted (w : World) (j : Job) : Prop :=
  versions_of w (job_projectId j) <> [].

(** Between [w1] and [w2] the user of the task got 5 credits back. *)
Definition refund_credited (w1 w2 : World) (j : Job) : Prop :=
  exists b, balance w1 (job_userId j) = Some b /\
            balance w2 (job_userId j) = Some (b + 5).

(** The debit is matched by exactly one of a version and a refund; [w1] is the
    world after the debit and [w2] the world when the task has ended. *)
Definition debit_matched (w1 w2 : World) (j : Job) : Prop :=
  (version_persisted w2 j /\ ~ refund_credited w1 w2 j) \/
  (refund_credited w1 w2 j /\ ~ version_persisted w2 j).

(** Some line of the console carries the text of [e]. *)
Definition logged (w : World) (e : JsError) : Prop :=
  exists line, line ∈ console w /\ err_text e ∈ line.

(** The console line of the [catch] block of the detached task. *)
Definition line_of (e : JsError) : list string :=
  ["Background generation failed:"; err_text e].

(** A conversation row. *)
Definition entry (id : nat) (role : Role) (content : jsstring)
    (projectId : nat) : Conversation :=
  {| c_id := id; c_role := role; c_content := content;
     c_projectId := projectId |}.

(** The role and the content of the entries of a project, oldest first. *)
Definition transcript (w : World) (projectId : nat) : list (Role * jsstring) :=
  map (fun c => (c_role c, c_content c)) (entries_of w projectId).

(** ** A concrete request

    The scenario of the specification: a user with 10 credits asks for a
    portfolio site. *)

#[global] Instance Site_eq_dec : EqDecision Site.
Proof. solve_decision. Defined.

Module Scenario.

Definition alice : User := {| credits := 10; totalCreation := 0 |}.

Definition store0 : Store :=
  {| user := {[ "alice" := alice ]};
     websiteProject := ∅;
     conversation := [];
     version := [];
     next_id := 0 |}.

Definition world0 : World :=
  {| db := store0; console := []; ai_calls := [] |}.

Definition prompt0 : jsstring :=
  JsString.lit "a portfolio site for a photographer".

Definition page : jsstring :=
  JsString.lit "```html" ++ [JsString.newline]
  ++ JsString.lit "<h1>Portfolio</h1>" ++ [JsString.newline]
  ++ JsString.lit "```".

Definition only_fences : jsstring :=
  JsString.lit "```html" ++ [JsString.newline] ++ JsString.lit "```".

Definition econnreset : JsError :=
  {| err_code := Some "ECONNRESET"; err_message := "socket hang up" |}.

Definition db_down : JsError :=
  {| err_code := Some "P1001";
     err_message := "Can't reach database server" |}.

(** The service answers the enhancement with nothing and the generation
    with [code]; the store calls listed in [faults] are rejected. *)
Definition env_of (faults : list (Site * JsError)) (code : jsstring) : Env :=
  {| fault := fun site =>
                (fun x => snd (snd x)) <$>
                  list_find (fun x => fst x = site) faults;
     ai := fun rq =>
             match rq with
             | Enhance _ => Ok None
             | Generate _ => Ok (Some code)
             end |}.

(** The enhancement call itself is rejected. *)
Definition env_enhance_fails (faults : list (Site * JsError)) : Env :=
  {| fault := fault (env_of faults []);
     ai := fun rq =>
             match rq with
             | Enhance _ => Throw econnreset
             | Generate _ => Ok (Some page)
             end |}.

Definition job0 : Job :=
  {| job_userId := "alice"; job_prompt := prompt0; job_projectId := 0 |}.

(** Everything works and the service returns a fenced page. *)
Definition env_page : Env := env_of [] page.

(** The service returns nothing but fences. *)
Definition env_empty : Env := env_of [] only_fences.

(** The page is generated and stored, then the last notice is rejected. *)
Definition env_notice_fails : Env := env_of [(LogSuccess, db_down)] page.

(** The enhancement answers with blanks only. *)
Definition env_blank : Env :=
  {| fault := fun _ => None;
     ai := fun rq =>
             match rq with
             | Enhance _ => Ok (Some (JsString.lit "  "))
             | Generate _ => Ok (Some page)
             end |}.

(** Nothing but fences comes back, and the refund that follows is
    rejected once. *)
Definition env_first_refund_fails : Env :=
  env_of [(RefundEmpty, db_down)] only_fences.

(** The enhancement call is rejected; the store works. *)
Definition env_enhance_down : Env := env_enhance_fails [].

(** The enhancement call is rejected, and so is the refund that follows. *)
Definition env_refund_fails : Env :=
  env_enhance_fails [(RefundCatch, db_down)].

(** The world when the response has been sent: project 0 exists and the
    debit is done. *)
Definition world1 : World :=
  (createUserProject_sync env_page (Some "alice") (Some prompt0) world0).2.

(** The world when the detached task has ended. *)
Definition world2 (env : Env) : World := (background env job0 world1).2.

(** A second user and the store with the project of the first. *)
Definition store1 : Store :=
  {| user := <["bob" := {| credits := 3; totalCreation := 0 |}]>
               (user (db world1));
     websiteProject := websiteProject (db world1);
     conversation := conversation (db world1);
     version := version (db world1);
     next_id := next_id (db world1) |}.

Definition world_bob : World :=
  {| db := store1; console := []; ai_calls := [] |}.

End Scenario.

(** ** The rest of the controller: [getUserProjects], [togglePublish],
       [purchaseCredits] *)

(** The store calls of these three functions, and what else surrounds one of
    their requests: the [updatedAt] column of the projects, which the rows
    above leave out, the clock, and the payment processor. A session is
    answered with its [url], [None] for [null]. *)
Inductive SiteX :=
| ProjectsFindMany     (* line 194 *)
| ToggleFind           (* line 216 *)
| ToggleUpdate         (* line 225 *)
| TransactionCreate.   (* line 260 *)

(** [stripe.checkout.sessions.create(...)], by the fields that vary. *)
Record CheckoutSession := {
  success_url : string;
  cancel_url : string;
  product_name : string;
  unit_amount : Z;
  quantity : Z;
  metadata_transactionId : nat;
  metadata_appId : string;
  expires_at : Z
}.

Record EnvX := {
  fault_x : SiteX -> option JsError;
  updatedAt : nat -> Z;
  date_now : Z;
  stripe_create : CheckoutSession -> outcome (option string)
}.

(** The store part of [prisma.websiteProject.update]. *)
Definition update_project_row (id : nat)
    (f : WebsiteProject -> WebsiteProject) : M unit :=
  s ← get_db;
  match websiteProject s !! id with
  | None => throw record_not_found
  | Some p =>
      put_db {| user := user s;
                websiteProject := <[id := f p]> (websiteProject s);
                conversation := conversation s;
                version := version s;
                next_id := next_id s |}
  end.

Definition set_published (b : bool) (p : WebsiteProject) : WebsiteProject :=
  {| p_userId := p_userId p; p_name := p_name p;
     p_initial_prompt := p_initial_prompt p;
     current_code := current_code p;
     current_version_index := current_version_index p;
     isPublished := b |}.

(** The projects of a user, as rows with their identifier. *)
Definition owned_projects (s : Store) (userId : string)
  : list (nat * WebsiteProject) :=
  filter (fun x => p_userId (snd x) = userId) (map_to_list (websiteProject s)).

(** [orderBy: { updatedAt: "desc" }] *)
Definition newer (at_ : nat -> Z) (x y : nat * WebsiteProject) : Prop :=
  at_ (fst y) <= at_ (fst x).

#[global] Instance newer_dec at_ x y : Decision (newer at_ x y).
Proof. unfold newer. apply _. Defined.

Inductive BodyX :=
| Plain (b : Body)
| ProjectsBody (projects : list (nat * WebsiteProject))
| PaymentLink (payment_link : option string).

Record ResponseX := { status_x : nat; body_x : BodyX }.

Definition json_x (b : BodyX) : ResponseX := {| status_x := 200; body_x := b |}.
Definition status_json_x (n : nat) (b : BodyX) : ResponseX :=
  {| status_x := n; body_x := b |}.

Section ControllerX.

Variable envx : EnvX.

Definition await_x (site : SiteX) : M unit :=
  match fault_x envx site with
  | Some e => throw e
  | None => mret tt
  end.

(** [prisma.websiteProject.findMany({ where: { userId }, orderBy })] *)
Definition websiteProject_findMany (site : SiteX) (userId : string)
  : M (list (nat * WebsiteProject)) :=
  await_x site;;
  s ← get_db;
  mret (merge_sort (newer (updatedAt envx)) (owned_projects s userId)).

(** *** [getUserProjects] (lines 187-204) *)
Definition getUserProjects (userId : option string) : M ResponseX :=
  try_catch
    (match authenticated userId with
     | None =>
         mret (status_json_x 401 (Plain (Message "Unauthorized user")))
     | Some uid =>
         projects ← websiteProject_findMany ProjectsFindMany uid;
         mret (json_x (ProjectsBody projects))
     end)
    (fun error =>
       console_log [err_text error];;
       mret (status_json_x 500 (Plain (Message (err_message error))))).

(** [prisma.websiteProject.findUnique({ where: { id, userId }, select })] *)
Definition websiteProject_findOwned (site : SiteX) (id : nat)
    (userId : string) : M (option WebsiteProject) :=
  await_x site;;
  s ← get_db;
  mret (match websiteProject s !! id with
        | Some p => if decide (p_userId p = userId) then Some p else None
        | None => None
        end).

(** *** [togglePublish] (lines 207-237) *)
Definition togglePublish (userId : option string) (projectId : nat)
  : M Response :=
  try_catch
    (match authenticated userId with
     | None => mret (status_json 401 (Message "Unauthorized user"))
     | Some uid =>
         project ← websiteProject_findOwned ToggleFind projectId uid;
         match project with
         | None => mret (status_json 404 (Message "Project not found"))
         | Some p =>
             (await_x ToggleUpdate;;
              update_project_row projectId
                (set_published (negb (isPublished p))));;
             mret (json (Message
                           (if isPublished p then "Project Unpublished"
                            else "Project Published Successfully")))
         end
     end)
    (fun error =>
       console_log [err_text error];;
       mret (status_json 500 (Message (err_message error)))).

End ControllerX.

(** *** [purchaseCredits] (lines 240-298) *)

Record Plan := { plan_credits : Z; plan_amount : Z }.

(** The own properties of [plans]. *)
Definition plans (planId : string) : option Plan :=
  if decide (planId = "basic") then
    Some {| plan_credits := 100; plan_amount := 5 |}
  else if decide (planId = "pro") then
    Some {| plan_credits := 400; plan_amount := 19 |}
  else if decide (planId = "enterprise") then
    Some {| plan_credits := 1000; plan_amount := 49 |}
  else None.

(** The properties every object literal inherits from [Object.prototype]:
    [plans[planId]] finds them too, and they are truthy. *)
Definition object_prototype_names : list string :=
  ["constructor"; "__defineGetter__"; "__defineSetter__"; "hasOwnProperty";
   "__lookupGetter__"; "__lookupSetter__"; "isPrototypeOf";
   "propertyIsEnumerable"; "toString"; "valueOf"; "__proto__";
   "toLocaleString"].

Inductive PlanLookup :=
| OwnPlan (p : Plan)
| Inherited
| Undefined.

(** [plans[planId]]; a [planId] that is missing reads the key
    ["undefined"]. *)
Definition plans_at (planId : option string) : PlanLookup :=
  match planId with
  | None => Undefined
  | Some k =>
      match plans k with
      | Some p => OwnPlan p
      | None =>
          if decide (k ∈ object_prototype_names) then Inherited
          else Undefined
      end
  end.

(** Modelled from the spec: the Prisma schema is not among the sources. The
    columns are those of Transactions in the persisted state layout of the
    specification; [amount] and [credits] are taken to be required, and a
    transaction belongs to a user that exists. *)
Record Transaction := {
  t_id : nat;
  t_planId : string;
  t_amount : Z;
  t_credits : Z;
  t_userId : string
}.

(** The world of [purchaseCredits]: the transactions and the sessions asked of
    the payment processor, oldest first, beside the world above. *)
Record WorldX := {
  world : World;
  transaction : list Transaction;
  stripe_calls : list CheckoutSession
}.

Definition MX (A : Type) : Type := WorldX -> outcome A * WorldX.

#[global] Instance MX_ret : MRet MX := fun A a w => (Ok a, w).

#[global] Instance MX_bind : MBind MX := fun A B f m w =>
  match m w with
  | (Ok a, w') => f a w'
  | (Throw e, w') => (Throw e, w')
  end.

Definition throw_x {A} (e : JsError) : MX A := fun w => (Throw e, w).

Definition try_catch_x {A} (m : MX A) (h : JsError -> MX A) : MX A := fun w =>
  match m w with
  | (Ok a, w') => (Ok a, w')
  | (Throw e, w') => h e w'
  end.

(** A computation on the world above, run inside the larger one. *)
Definition lift_x {A} (m : M A) : MX A := fun wx =>
  match m (world wx) with
  | (o, w') =>
      (o, {| world := w'; transaction := transaction wx;
             stripe_calls := stripe_calls wx |})
  end.

(** Prisma's errors for a [create] that lacks a required field and for a
    [connect] to a row that does not exist. *)
Definition validation_error : JsError :=
  {| err_code := None; err_message := "Argument is missing." |}.

Definition connect_not_found : JsError :=
  {| err_code := Some "P2025";
     err_message := "No record was found for a connect." |}.

(** The text of a value inside a template literal. *)
Definition template_of (origin : option string) : string :=
  match origin with
  | Some s => s
  | None => "undefined"
  end.

(** The store part of [prisma.transaction.create] with
    [user: { connect: { id: userId } }]. *)
Definition insert_transaction (planId : string) (amount credits : Z)
    (userId : string) : MX Transaction := fun wx =>
  let s := db (world wx) in
  match user s !! userId with
  | None => (Throw connect_not_found, wx)
  | Some _ =>
      let t := {| t_id := next_id s; t_planId := planId;
                  t_amount := amount; t_credits := credits;
                  t_userId := userId |} in
      (Ok t,
       {| world :=
            {| db := {| user := user s;
                        websiteProject := websiteProject s;
                        conversation := conversation s;
                        version := version s;
                        next_id := S (next_id s) |};
               console := console (world wx);
               ai_calls := ai_calls (world wx) |};
          transaction := transaction wx ++ [t];
          stripe_calls := stripe_calls wx |})
  end.

Section Purchase.

Variable envx : EnvX.

(** [prisma.transaction.create({ data, select: { id, amount } })]; the
    client rejects data that lacks a required field before it asks the
    store. *)
Definition transaction_create (site : SiteX) (planId : string)
    (amount credits : option Z) (userId : string) : MX Transaction :=
  match amount, credits with
  | Some a, Some c =>
      lift_x (await_x envx site);; insert_transaction planId a c userId
  | _, _ => throw_x validation_error
  end.

(** [new Stripe(key)] and [stripe.checkout.sessions.create(...)], then
    [session.url]. *)
Definition checkout (rq : CheckoutSession) : MX (option string) := fun wx =>
  (stripe_create envx rq,
   {| world := world wx; transaction := transaction wx;
      stripe_calls := stripe_calls wx ++ [rq] |}).

Definition purchaseCredits (userId : option string) (planId : option string)
    (origin : option string) : MX ResponseX :=
  try_catch_x
    (match authenticated userId with
     | None =>
         mret (status_json_x 401 (Plain (Message "Unauthorized user")))
     | Some uid =>
         match plans_at planId with
         | Undefined =>
             mret (status_json_x 404 (Plain (Message "Plan not found")))
         | lookup =>
             let plan := match lookup with OwnPlan p => Some p | _ => None end in
             t ← transaction_create TransactionCreate (default "" planId)
                   (plan_amount <$> plan) (plan_credits <$> plan) uid;
             url ← checkout
                     {| success_url := template_of origin +:+ "/loading";
                        cancel_url := template_of origin;
                        product_name :=
                          "SiteSwift - "
                          +:+ from_option (fun p => pretty (plan_credits p))
                                "undefined" plan
                          +:+ " Credits";
                        (* Math.floor of an integer amount *)
                        unit_amount := t_amount t * 100;
                        quantity := 1;
                        metadata_transactionId := t_id t;
                        metadata_appId := "siteSwift";
                        expires_at := date_now envx / 1000 + 30 * 60 |};
             mret (json_x (PaymentLink url))
         end
     end)
    (fun error =>
       lift_x (console_log [err_text error]);;
       mret (status_json_x 500 (Plain (Message (err_message error))))).

End Purchase.

(** ** A request without a body

    [createUserProject] and [purchaseCredits] read their input with a
    destructuring of [req.body] inside their [try] block (lines 31 and 251).
    When [req.body] is [undefined] the destructuring throws, and the [catch]
    block answers. *)

(** The [TypeError] of V8 for [const { property } = req.body] when
    [req.body] is [undefined]; it has no [code]. *)
Definition cannot_destructure (property : string) : JsError :=
  {| err_code := None;
     err_message :=
       "Cannot destructure property '" +:+ property
       +:+ "' of 'req.body' as it is undefined." |}.

(** What a handler finds in a field of a parsed body: nothing ([undefined]
    or [null]), a string, or a value of another type (a number, a boolean,
    an array, an object). *)
Inductive Field :=
| Nullish
| Text (s : jsstring)
| NotText.

(** The [TypeError] of V8 for a call of something that is no function; it
    has no [code]. *)
Definition not_a_function (callee : string) : JsError :=
  {| err_code := None; err_message := callee +:+ " is not a function" |}.

(** [createUserProject] on a request as it arrives: [None] for a request
    whose [req.body] is [undefined], [Some] of the [initial_prompt] of the
    body otherwise. The destructuring (line 31) comes before the test of
    [userId] (line 33); [initial_prompt?.trim()] (line 34) comes after it,
    and throws for a value that is neither nullish nor a string. *)
Definition createUserProject_request (env : Env) (userId : option string)
    (body : option Field) : M Response :=
  match body with
  | None =>
      console_log [err_text (cannot_destructure "initial_prompt")];;
      mret (status_json 500
              (Message (err_message (cannot_destructure "initial_prompt"))))
  | Some Nullish => createUserProject env userId None
  | Some (Text initial_prompt) =>
      createUserProject env userId (Some initial_prompt)
  | Some NotText =>
      match authenticated userId with
      | None => mret (status_json 401 (Message "Unauthorized user"))
      | Some _ =>
          console_log [err_text (not_a_function "initial_prompt?.trim")];;
          mret (status_json 500
                  (Message
                     (err_message (not_a_function "initial_prompt?.trim"))))
      end
  end.

(** [purchaseCredits] on a request as it arrives: [None] for a request whose
    [req.body] is [undefined], [Some] of the [planId] of the body otherwise,
    which is a string when there is one. Here the test of [userId] (lines
    248-249) comes before the destructuring (line 251). *)
Definition purchaseCredits_request (envx : EnvX) (userId : option string)
    (body : option (option string)) (origin : option string) : MX ResponseX :=
  match body with
  | Some planId => purchaseCredits envx userId planId origin
  | None =>
      match authenticated userId with
      | None =>
          mret (status_json_x 401 (Plain (Message "Unauthorized user")))
      | Some _ =>
          lift_x (console_log [err_text (cannot_destructure "planId")]);;
          mret (status_json_x 500
                  (Plain (Message (err_message (cannot_destructure "planId")))))
      end
  end.

(** ** Two requests that overlap

    The handler gives way at every [await]. The first is the lookup of the
    user (line 36): what it returns is kept in [user], and the test of the
    credits (line 42) and the debit (line 63) come after it. *)

(** A request for a project at its first [await]: answered already, or
    holding what the lookup returned. *)
Inductive Suspended :=
| Answered (res : Response)
| Looked (uid : string) (prompt : jsstring) (u : option User).

Section Overlap.

Variable env : Env.

(** Lines 28-39: up to the lookup of the user. *)
Definition create_until_lookup (userId : option string)
    (initial_prompt : option jsstring) : M Suspended :=
  try_catch
    (match authenticated userId with
     | None => mret (Answered (status_json 401 (Message "Unauthorized user")))
     | Some uid =>
     match initial_prompt with
     | None =>
         mret (Answered
                 (status_json 400 (Message "initial_prompt is required")))
     | Some prompt =>
     if negb (JsString.truthy (JsString.trim prompt)) then
       mret (Answered
               (status_json 400 (Message "initial_prompt is required")))
     else
       u ← user_findUnique env FindUser uid;
       mret (Looked uid prompt u)
     end
     end)
    (fun error =>
       console_log [err_text error];;
       mret (Answered (status_json 500 (Message (err_message error))))).

(** Lines 41-69: from the value the lookup returned to the response. *)
Definition create_after_lookup (s : Suspended) : M (Response * option Job) :=
  match s with
  | Answered res => mret (res, None)
  | Looked uid prompt u =>
      try_catch
        (match u with
         | None => mret (status_json 401 (Message "User not found"), None)
         | Some u =>
         if credits u <? 5 then
           mret (status_json 403
                   (Message "Add credits to create more projects"), None)
         else
           projectId ← websiteProject_create env CreateProject
                         (project_name prompt) prompt uid;
           user_update env IncTotalCreation uid (add_totalCreation 1);;
           conversation_create env LogUserPrompt RoleUser prompt projectId;;
           user_update env Debit uid (add_credits (-5));;
           mret (json (ProjectIdBody projectId),
                 Some {| job_userId := uid; job_prompt := prompt;
                         job_projectId := projectId |})
         end)
        (fun error =>
           console_log [err_text error];;
           mret (status_json 500 (Message (err_message error)), None))
  end.



End Overlap.

(** ** What is kept whatever happens *)

(** The pointer of every project that has one names a version of that very
    project, whose code is the project's current code. *)
Definition pointers_ok (s : Store) : Prop :=
  forall pid p vid,
    websiteProject s !! pid = Some p ->
    current_version_index p = Some vid ->
    exists v, v ∈ version s /\ v_id v = vid /\ v_projectId v = pid /\
              current_code p = Some (v_code v).

(** ** More of the scenario *)

Module ScenarioX.
Import Scenario.

(** The world when the page of the scenario has been generated. *)
Definition world_done : World := world2 env_page.

(** Project 0 is the newer of two projects of the first user; a third
    project is the second user's. *)
Definition store_three : Store :=
  {| user := <["bob" := {| credits := 3; totalCreation := 0 |}]>
               (user (db world_done));
     websiteProject :=
       <[7%nat := new_project (JsString.lit "shop") (JsString.lit "shop")
                    "alice"]>
         (<[8%nat := new_project (JsString.lit "blog") (JsString.lit "blog")
                       "bob"]>
            (websiteProject (db world_done)));
     conversation := conversation (db world_done);
     version := version (db world_done);
     next_id := 9 |}.

Definition world_three : World :=
  {| db := store_three; console := []; ai_calls := [] |}.

Definition envx0 : EnvX :=
  {| fault_x := fun _ => None;
     updatedAt := fun id => if decide (id = 0%nat) then 20 else 10;
     date_now := 1700000000000;
     stripe_create := fun _ => Ok (Some "https://checkout.example/s1") |}.

(** The payment processor is down. *)
Definition envx_stripe_down : EnvX :=
  {| fault_x := fun _ => None;
     updatedAt := updatedAt envx0;
     date_now := date_now envx0;
     stripe_create := fun _ => Throw econnreset |}.

Definition worldx0 : WorldX :=
  {| world := world_three; transaction := []; stripe_calls := [] |}.

(** A prompt of sixty code units. *)
Definition long_prompt : jsstring :=
  JsString.lit "a portfolio site for a photographer with a dark colour theme".

End ScenarioX.

(** * Properties *)

(** ** The sanitiser on some outputs *)

Example sanitize_fenced :
  sanitize Scenario.page = JsString.lit "<h1>Portfolio</h1>".
Proof. reflexivity. Qed.

Example sanitize_only_fences : sanitize Scenario.only_fences = [].
Proof. reflexivity. Qed.

Example sanitize_inner_backticks :
  sanitize (JsString.lit "a``````js``b ") = JsString.lit "a``b".
Proof. reflexivity. Qed.

(** ** Facts about the string operations *)

Module JsStringFacts.
Import JsString.

Lemma replace_from_drop re n s :
  replace_from re n s = replace_from re 0 (drop n s).
Proof.
  revert n. induction s as [|c r IH]; intros [|k]; simpl; try reflexivity.
  rewrite IH. destruct (drop k r); reflexivity.
Qed.

Lemma lead_ge_3 s :
  (3 <= lead s)%nat <-> exists r, s = fence ++ r.
Proof.
  unfold lead, fence, backtick. split.
  - destruct s as [|a [|b [|c r]]]; simpl;
      repeat (case N.eqb_spec; simpl); intros; subst; try lia.
    now exists r.
  - intros [r ->]. simpl. lia.
Qed.

Lemma fence_open_none s :
  (lead s < 3)%nat -> re_fence_open s = None.
Proof.
  unfold lead, re_fence_open, backtick.
  destruct s as [|a [|b [|c r]]]; simpl; try reflexivity.
  repeat (case N.eqb_spec; simpl); intros; subst; try reflexivity; lia.
Qed.

Lemma fence_open_some s n :
  re_fence_open s = Some n -> (3 <= n)%nat /\ (3 <= lead s)%nat.
Proof.
  unfold lead, re_fence_open, backtick.
  destruct s as [|a [|b [|c r]]]; simpl; try discriminate.
  repeat (case N.eqb_spec; simpl); intros; subst; try discriminate.
  simplify_eq. lia.
Qed.

Lemma fence_end_some s n :
  re_fence_end s = Some n -> (3 <= lead s)%nat.
Proof.
  unfold lead, re_fence_end, backtick.
  destruct s as [|a [|b [|c [|d r]]]]; simpl; try discriminate.
  repeat (case N.eqb_spec; simpl); intros; subst; try discriminate. lia.
Qed.

Lemma lead_cons c r :
  lead (c :: r) = if (c =? backtick)%N then S (lead r) else 0%nat.
Proof. reflexivity. Qed.

(** Where no match starts, the first code unit is kept. *)
Lemma replace_all_keep re c r :
  re (c :: r) = None -> replace_all re (c :: r) = c :: replace_all re r.
Proof. unfold replace_all. simpl. now intros ->. Qed.

(** Where a match starts, the search goes on after it. *)
Lemma replace_all_skip re s n :
  re s = Some (S n) -> replace_all re s = replace_all re (drop (S n) s).
Proof.
  unfold replace_all. destruct s as [|c r]; simpl.
  - now destruct (re []).
  - intros ->. simpl. apply replace_from_drop.
Qed.

(** Removing the opening fences leaves the run of backticks at the head
    alone when it is too short to be a fence. *)
Lemma lead_replace_open s :
  (lead s < 3)%nat -> lead (replace_all re_fence_open s) = lead s.
Proof.
  induction s as [|c r IH]; intros Hl; [reflexivity|].
  rewrite replace_all_keep by now apply fence_open_none.
  rewrite !lead_cons in *. destruct (c =? backtick)%N; [|reflexivity].
  rewrite IH; [reflexivity | lia].
Qed.

(** After the first [replace] no fence is left, not even one put together
    from the backticks on both sides of a removed match. *)
Lemma no_fence_replace_open s :
  no_fence (replace_all re_fence_open s) = true.
Proof.
  remember (length s) as n eqn:Hn. revert s Hn.
  induction n as [n IH] using lt_wf_ind. intros s ->.
  destruct s as [|c r]; [reflexivity|].
  destruct (re_fence_open (c :: r)) as [m|] eqn:Hre.
  - destruct (fence_open_some _ _ Hre) as [Hm _].
    destruct m as [|m]; [lia|].
    rewrite (replace_all_skip _ _ _ Hre).
    eapply IH; [|reflexivity]. simpl. rewrite length_drop. lia.
  - assert (lead (c :: r) < 3)%nat as Hl.
    { destruct (Nat.lt_ge_cases (lead (c :: r)) 3) as [?|Hge]; [done|].
      apply lead_ge_3 in Hge as [r' Hr']. rewrite Hr' in Hre.
      discriminate. }
    pose proof (lead_replace_open _ Hl) as Hlead.
    rewrite replace_all_keep in * by done.
    change (no_fence (c :: ?x)) with ((lead (c :: x) <? 3)%nat && no_fence x).
    rewrite Hlead. apply andb_true_iff. split.
    + now apply Nat.ltb_lt.
    + eapply IH; [|reflexivity]. simpl. lia.
Qed.

Lemma no_fence_cons c r :
  no_fence (c :: r) = true <-> (lead (c :: r) < 3)%nat /\ no_fence r = true.
Proof.
  change (no_fence (c :: r)) with ((lead (c :: r) <? 3)%nat && no_fence r).
  rewrite andb_true_iff, Nat.ltb_lt. tauto.
Qed.

Lemma replace_open_id s :
  no_fence s = true -> replace_all re_fence_open s = s.
Proof.
  induction s as [|c r IH]; [reflexivity|].
  intros [Hl Hr]%no_fence_cons.
  rewrite replace_all_keep by now apply fence_open_none.
  now rewrite IH.
Qed.

Lemma replace_end_id s :
  no_fence s = true -> replace_all re_fence_end s = s.
Proof.
  induction s as [|c r IH]; [reflexivity|].
  intros [Hl Hr]%no_fence_cons.
  rewrite replace_all_keep; [now rewrite IH|].
  destruct (re_fence_end (c :: r)) as [n|] eqn:E; [|reflexivity].
  apply fence_end_some in E. lia.
Qed.

Lemma no_fence_spec s : no_fence s = true <-> ~ has_fence s.
Proof.
  split.
  - intros Hs (l1 & l2 & ->). induction l1 as [|a l1 IH].
    + change ([] ++ fence ++ l2) with (backtick :: backtick :: backtick :: l2) in Hs.
      apply no_fence_cons in Hs as [Hl _].
      assert (3 <= lead (fence ++ l2))%nat as Hge by (apply lead_ge_3; eauto).
      exact (Nat.lt_irrefl _ (Nat.lt_le_trans _ _ _ Hl Hge)).
    + apply no_fence_cons in Hs as [_ Hs]. auto.
  - induction s as [|c r IH]; [reflexivity|]. intros Hn.
    apply no_fence_cons. split.
    + destruct (Nat.lt_ge_cases (lead (c :: r)) 3) as [?|Hge]; [done|].
      apply lead_ge_3 in Hge as [r' Hr']. destruct Hn.
      exists [], r'. now rewrite Hr'.
    + apply IH. intros (l1 & l2 & ->). apply Hn. now exists (c :: l1), l2.
Qed.

Lemma has_fence_infix k1 s k2 : has_fence s -> has_fence (k1 ++ s ++ k2).
Proof.
  intros (l1 & l2 & ->). exists (k1 ++ l1), (l2 ++ k2).
  now rewrite <- !app_assoc.
Qed.

Lemma drop_while_suffix p s : exists k, s = k ++ drop_while p s.
Proof.
  induction s as [|c r [k IH]]; [now exists []|]. simpl.
  destruct (p c); [|now exists []]. exists (c :: k). simpl. now f_equal.
Qed.

Lemma drop_while_id p s :
  match s with c :: _ => p c = false | [] => True end ->
  drop_while p s = s.
Proof. destruct s as [|c r]; [done|]. simpl. now intros ->. Qed.

Lemma drop_while_head p s :
  match drop_while p s with c :: _ => p c = false | [] => True end.
Proof.
  induction s as [|c r IH]; [done|]. simpl.
  destruct (p c) eqn:E; [done|]. simpl. done.
Qed.

Lemma drop_while_idem p s :
  drop_while p (drop_while p s) = drop_while p s.
Proof. apply drop_while_id, drop_while_head. Qed.

Lemma trimEnd_prefix s : exists k, s = trimEnd s ++ k.
Proof.
  unfold trimEnd. destruct (drop_while_suffix is_space (rev s)) as [k Hk].
  exists (rev k). rewrite <- rev_app_distr, <- Hk. now rewrite rev_involutive.
Qed.

Lemma trim_infix s : exists k1 k2, s = k1 ++ trim s ++ k2.
Proof.
  unfold trim, trimStart.
  destruct (drop_while_suffix is_space s) as [k1 Hk1].
  destruct (trimEnd_prefix (drop_while is_space s)) as [k2 Hk2].
  exists k1, k2. now rewrite <- Hk2.
Qed.

Lemma no_fence_trim s : no_fence s = true -> no_fence (trim s) = true.
Proof.
  rewrite !no_fence_spec. intros Hs Ht. apply Hs.
  destruct (trim_infix s) as (k1 & k2 & Hk). rewrite Hk.
  now apply has_fence_infix.
Qed.

Lemma trimEnd_idem s : trimEnd (trimEnd s) = trimEnd s.
Proof.
  unfold trimEnd. now rewrite rev_involutive, drop_while_idem.
Qed.

Lemma trimStart_trimEnd s :
  trimStart s = s -> trimStart (trimEnd s) = trimEnd s.
Proof.
  intros Hs. destruct (trimEnd_prefix s) as [k Hk].
  apply drop_while_id. destruct (trimEnd s) as [|c r] eqn:E; [done|].
  pose proof (drop_while_head is_space s) as Hh.
  fold (trimStart s) in Hh. rewrite Hs, Hk in Hh. exact Hh.
Qed.

Lemma trim_idem s : trim (trim s) = trim s.
Proof.
  unfold trim. rewrite trimStart_trimEnd, trimEnd_idem; [done|].
  apply drop_while_idem.
Qed.

Lemma trim_id s :
  starts_space s = false -> ends_space s = false -> trim s = s.
Proof.
  unfold trim, trimStart, trimEnd, ends_space, starts_space.
  intros Hs He. rewrite (drop_while_id _ s) by now destruct s.
  rewrite drop_while_id by now destruct (rev s).
  apply rev_involutive.
Qed.

End JsStringFacts.

Lemma sanitize_trim_replace raw :
  sanitize raw = JsString.trim (JsString.replace_all JsString.re_fence_open raw).
Proof.
  unfold sanitize.
  now rewrite JsStringFacts.replace_end_id
    by apply JsStringFacts.no_fence_replace_open.
Qed.

Lemma sanitize_no_fence raw : JsString.no_fence (sanitize raw) = true.
Proof.
  rewrite sanitize_trim_replace.
  apply JsStringFacts.no_fence_trim, JsStringFacts.no_fence_replace_open.
Qed.

(** C8. The sanitisation is idempotent: markup that is already clean (no
    fence, no white space at either end) is mapped to itself, and sanitising
    twice gives what sanitising once gives. *)
Theorem sanitize_idempotent (s : jsstring) :
  (clean s = true -> sanitize s = s) /\ sanitize (sanitize s) = sanitize s.
Proof.
  split.
  - unfold clean. rewrite !andb_true_iff, !negb_true_iff.
    intros [[Hf Hs] He]. rewrite sanitize_trim_replace.
    rewrite JsStringFacts.replace_open_id by done.
    now apply JsStringFacts.trim_id.
  - rewrite (sanitize_trim_replace (sanitize s)).
    rewrite JsStringFacts.replace_open_id by apply sanitize_no_fence.
    rewrite sanitize_trim_replace. apply JsStringFacts.trim_idem.
Qed.

(** ** Runs of the controller *)

Import Scenario.

Ltac unfold_calls :=
  unfold background, generation, createUserProject, createUserProject_sync,
    getUserCredits, getUserProject, websiteProject_findUnique,
    user_findUnique, user_update, websiteProject_create,
    websiteProject_update, conversation_create, version_create, completion,
    await, try_catch, throw, console_log, get_db, put_db,
    mbind, M_bind, mret, M_ret.

Ltac unfold_calls_in H :=
  unfold background, generation, createUserProject, createUserProject_sync,
    getUserCredits, getUserProject, websiteProject_findUnique,
    user_findUnique, user_update, websiteProject_create,
    websiteProject_update, conversation_create, version_create, completion,
    await, try_catch, throw, console_log, get_db, put_db,
    mbind, M_bind, mret, M_ret in H.

Section Fresh.
Context {A : Type} (key : A -> nat).

Lemma filter_fresh (n : nat) (l : list A) :
  forallb (fun x => (key x <? n)%nat) l = true ->
  filter (fun x => key x = n) l = [].
Proof.
  induction l as [|x l IH]; [done|]. simpl.
  intros [Hx Hl]%andb_true_iff. apply Nat.ltb_lt in Hx.
  rewrite filter_cons_False by lia. auto.
Qed.
End Fresh.

Lemma wf_fresh s :
  store_wf s = true ->
  filter (fun v => v_projectId v = next_id s) (version s) = [] /\
  filter (fun c => c_projectId c = next_id s) (conversation s) = [].
Proof.
  unfold store_wf. intros [Hv Hc]%andb_true_iff.
  split; now apply filter_fresh.
Qed.

Lemma sync_started env userId prompt w0 res j w1 :
  createUserProject_sync env userId prompt w0 = (Ok (res, Some j), w1) ->
  exists uid p u,
    authenticated userId = Some uid /\ prompt = Some p /\
    user (db w0) !! uid = Some u /\ 5 <= credits u /\
    res = json (ProjectIdBody (next_id (db w0))) /\
    j = {| job_userId := uid; job_prompt := p;
           job_projectId := next_id (db w0) |} /\
    balance w1 uid = Some (credits u - 5) /\
    project_of w1 (next_id (db w0)) = Some (new_project (project_name p) p uid) /\
    version (db w1) = version (db w0) /\
    conversation (db w1) =
      conversation (db w0) ++
      [{| c_id := S (next_id (db w0)); c_role := RoleUser; c_content := p;
          c_projectId := next_id (db w0) |}] /\
    console w1 = console w0 /\ ai_calls w1 = ai_calls w0.
Proof.
  intros H. unfold_calls_in H.
  destruct (authenticated userId) as [uid|]; [|simplify_eq/=].
  destruct prompt as [p|]; [|simplify_eq/=].
  destruct (negb _); [simplify_eq/=|].
  destruct (fault env FindUser); [simplify_eq/=|]. simpl in H.
  destruct (user (db w0) !! uid) as [u|] eqn:Hu; [|simplify_eq/=].
  destruct (credits u <? 5) eqn:Hc; [simplify_eq/=|]. apply Z.ltb_ge in Hc.
  destruct (fault env CreateProject); [simplify_eq/=|]. simpl in H.
  destruct (fault env IncTotalCreation); [simplify_eq/=|]. simpl in H.
  rewrite Hu in H. simpl in H.
  destruct (fault env LogUserPrompt); [simplify_eq/=|]. simpl in H.
  destruct (fault env Debit); [simplify_eq/=|]. simpl in H.
  rewrite lookup_insert_eq in H. simpl in H. simplify_eq.
  exists uid, p, u. unfold balance, project_of. simpl.
  rewrite !lookup_insert_eq. repeat split; done.
Qed.



(** The call on which the run in [t] waits next. *)
Ltac next_call t :=
  lazymatch t with
  | match ?x with _ => _ end => next_call x
  | (match ?x with _ => _ end) _ => next_call x
  | _ => t
  end.

(** Follow the run recorded in [H] to its end, one call at a time, taking
    both ways wherever a call can be rejected. *)
Ltac run_step H :=
  lazymatch type of H with
  | ?lhs = _ =>
      lazymatch lhs with
      | (_, _) => fail
      | _ => let x := next_call lhs in destruct x eqn:?
      end
  end;
  simpl in H; rewrite ?lookup_insert_eq in H; simpl in H.

Ltac run_in H := unfold_calls_in H; simpl in H; repeat run_step H.

(** The detached task never throws; it leaves the balance where it was or 5
    above and adds at most one version, which is a version of its project. *)
Lemma background_outcomes env j w b o w' :
  balance w (job_userId j) = Some b ->
  background env j w = (o, w') ->
  o = Ok tt /\
  (balance w' (job_userId j) = Some b \/
   balance w' (job_userId j) = Some (b + 5)) /\
  (version (db w') = version (db w) \/
   exists v, v_projectId v = job_projectId j /\
             version (db w') = version (db w) ++ [v]).
Proof.
  unfold balance. intros Hb H.
  destruct (user (db w) !! job_userId j) as [u|] eqn:Hu; simplify_eq/=.
  run_in H.
  all: simplify_eq; simpl; rewrite ?lookup_insert_eq, ?Hu; simpl.
  all: repeat split; eauto.
  all: right; eexists; split; [|reflexivity]; reflexivity.
Qed.

(** A run of the [try] block that throws has left the users alone. *)
Lemma generation_throws env j w e w' :
  generation env j w = (Throw e, w') ->
  user (db w') = user (db w) /\ console w' = console w.
Proof. intros H. run_in H; simplify_eq; done. Qed.

(** The [catch] block: one console line, then the refund, whose rejection is
    swallowed. *)
Lemma background_catch env j w e w' :
  generation env j w = (Throw e, w') ->
  exists w2,
    background env j w = (Ok tt, w2) /\
    console w2 = console w ++ [line_of e] /\
    ai_calls w2 = ai_calls w' /\
    version (db w2) = version (db w') /\
    conversation (db w2) = conversation (db w') /\
    user (db w2) =
      match fault env RefundCatch, user (db w) !! job_userId j with
      | None, Some u => <[job_userId j := add_credits 5 u]> (user (db w))
      | _, _ => user (db w)
      end.
Proof.
  intros H. destruct (generation_throws _ _ _ _ _ H) as [Hu Hc].
  unfold background, try_catch. rewrite H. unfold_calls. simpl.
  destruct (fault env RefundCatch); simpl; rewrite ?Hu, ?Hc.
  { eexists. split; [reflexivity|]. simpl. now rewrite ?Hu, ?Hc. }
  destruct (user (db w) !! job_userId j); simpl.
  all: eexists; (split; [reflexivity|]); simpl; now rewrite ?Hu, ?Hc.
Qed.

Lemma background_ok env j w w' :
  generation env j w = (Ok tt, w') -> background env j w = (Ok tt, w').
Proof. intros H. unfold background, try_catch. now rewrite H. Qed.

(** The [try] block when nothing is rejected and both completions answer. *)
Lemma generation_completes env j w u p e code :
  (forall site, fault env site = None) ->
  user (db w) !! job_userId j = Some u ->
  websiteProject (db w) !! job_projectId j = Some p ->
  ai env (Enhance (job_prompt j)) = Ok e ->
  ai env (Generate (enhanced_or (job_prompt j) e)) = Ok code ->
  let enhanced := enhanced_or (job_prompt j) e in
  let cleaned := sanitize (default [] code) in
  let pid := job_projectId j in
  let n := next_id (db w) in
  exists w',
    generation env j w = (Ok tt, w') /\
    console w' = console w /\
    ai_calls w' = ai_calls w ++ [Enhance (job_prompt j); Generate enhanced] /\
    if JsString.truthy cleaned then
      user (db w') = user (db w) /\
      version (db w') =
        version (db w) ++
        [{| v_id := S (S n); v_code := cleaned;
            v_description := JsString.lit "Initial Version";
            v_projectId := pid |}] /\
      websiteProject (db w') =
        <[pid := set_current cleaned (S (S n)) p]> (websiteProject (db w)) /\
      conversation (db w') =
        conversation (db w) ++
        [entry n RoleAssistant (msg_enhanced enhanced) pid;
         entry (S n) RoleAssistant msg_start pid;
         entry (S (S (S n))) RoleAssistant msg_success pid]
    else
      user (db w') = <[job_userId j := add_credits 5 u]> (user (db w)) /\
      version (db w') = version (db w) /\
      websiteProject (db w') = websiteProject (db w) /\
      conversation (db w') =
        conversation (db w) ++
        [entry n RoleAssistant (msg_enhanced enhanced) pid;
         entry (S n) RoleAssistant msg_start pid;
         entry (S (S n)) RoleAssistant msg_failure pid].
Proof.
  intros Hf Hu Hp He Hc. cbv zeta. unfold_calls.
  rewrite He. simpl. rewrite !Hf. simpl. rewrite Hc. simpl.
  destruct (JsString.truthy _) eqn:Ht; simpl.
  - rewrite Hp. simpl. eexists. split; [reflexivity|]. simpl.
    rewrite <- !app_assoc. done.
  - rewrite Hu. simpl. eexists. split; [reflexivity|]. simpl.
    rewrite <- !app_assoc. done.
Qed.

Lemma sync_succeeds env userId p w0 uid u :
  (forall site, fault env site = None) ->
  authenticated userId = Some uid ->
  JsString.truthy (JsString.trim p) = true ->
  user (db w0) !! uid = Some u -> 5 <= credits u ->
  exists w1,
    createUserProject_sync env userId (Some p) w0 =
    (Ok (json (ProjectIdBody (next_id (db w0))),
         Some {| job_userId := uid; job_prompt := p;
                 job_projectId := next_id (db w0) |}), w1).
Proof.
  intros Hf Ha Hp Hu Hc. unfold_calls. rewrite Ha, Hp. simpl.
  rewrite !Hf. simpl. rewrite Hu. simpl.
  apply Z.ltb_ge in Hc. rewrite Hc. simpl.
  rewrite Hu. simpl. rewrite lookup_insert_eq. simpl. eauto.
Qed.

Lemma createUserProject_run env userId prompt w0 res j w1 w2 :
  createUserProject_sync env userId prompt w0 = (Ok (res, Some j), w1) ->
  background env j w1 = (Ok tt, w2) ->
  createUserProject env userId prompt w0 = (Ok res, w2).
Proof.
  intros Hs Hb. unfold createUserProject, mbind, M_bind.
  rewrite Hs. simpl. now rewrite Hb.
Qed.

Lemma balance_user w uid b :
  balance w uid = Some b ->
  exists u, user (db w) !! uid = Some u /\ credits u = b.
Proof.
  unfold balance. destruct (user (db w) !! uid) as [u|]; [|done].
  intros [= <-]. eauto.
Qed.

Lemma filter_last_fresh {A} (key : A -> nat) (n : nat) (l : list A) (x : A) :
  filter (fun y => key y = n) l = [] -> key x = n ->
  filter (fun y => key y = n) (l ++ [x]) = [x].
Proof.
  intros Hl Hx. rewrite filter_app, Hl. simpl.
  now rewrite filter_cons_True.
Qed.

(** C2. A generation that completes successfully (no call rejected, output
    not empty once sanitised) answers with the identifier of the new project,
    leaves the balance exactly 5 below what it was, creates exactly one
    version, which is the only version of the new project, and sets
    [current_code] and [current_version_index] of the project to the code and
    the identifier of that version. *)
Theorem successful_generation env userId prompt w0 uid u e code :
  store_wf (db w0) = true ->
  (forall site, fault env site = None) ->
  authenticated userId = Some uid ->
  JsString.truthy (JsString.trim prompt) = true ->
  user (db w0) !! uid = Some u -> 5 <= credits u ->
  ai env (Enhance prompt) = Ok e ->
  ai env (Generate (enhanced_or prompt e)) = Ok code ->
  JsString.truthy (sanitize (default [] code)) = true ->
  let pid := next_id (db w0) in
  let cleaned := sanitize (default [] code) in
  exists w2 v p',
    createUserProject env userId (Some prompt) w0 =
      (Ok (json (ProjectIdBody pid)), w2) /\
    balance w0 uid = Some (credits u) /\
    balance w2 uid = Some (credits u - 5) /\
    v_code v = cleaned /\
    v_projectId v = pid /\
    version (db w2) = version (db w0) ++ [v] /\
    versions_of w2 pid = [v] /\
    project_of w2 pid = Some p' /\
    current_code p' = Some (v_code v) /\
    current_code p' = Some cleaned /\
    current_version_index p' = Some (v_id v) /\
    p_userId p' = uid /\
    p_initial_prompt p' = prompt /\
    p' = set_current cleaned (v_id v)
           (new_project (project_name prompt) prompt uid).
Proof.
  intros Hwf Hf Ha Hp Hu Hc He Hcode Ht pid cleaned.
  destruct (sync_succeeds env userId prompt w0 uid u) as [w1 Hs]; try done.
  destruct (sync_started _ _ _ _ _ _ _ Hs)
    as (uid' & p' & u' & Ha' & Hp' & Hu' & _ & _ & _ & Hb & Hpr & Hv & _).
  simplify_eq. apply balance_user in Hb as (u1 & Hu1 & Hcr).
  destruct (generation_completes env
              {| job_userId := uid; job_prompt := p';
                 job_projectId := next_id (db w0) |}
              w1 u1 _ e code Hf Hu1 Hpr He Hcode)
    as (w2 & Hg & _ & _ & Hcase).
  simpl in Hcase. rewrite Ht in Hcase.
  destruct Hcase as (Hus & Hver & Hproj & _).
  exists w2,
    {| v_id := S (S (next_id (db w1))); v_code := cleaned;
       v_description := JsString.lit "Initial Version";
       v_projectId := next_id (db w0) |},
    (set_current cleaned (S (S (next_id (db w1))))
       (new_project (project_name p') p' uid)).
  split.
  { eapply createUserProject_run; [exact Hs|]. now apply background_ok. }
  unfold balance, versions_of, project_of.
  rewrite Hus, Hu1, Hu, Hver, Hv, Hproj, lookup_insert_eq. simpl.
  split; [done|]. split; [now rewrite Hcr|].
  split; [reflexivity|]. split; [reflexivity|]. split; [reflexivity|].
  split; [apply (filter_last_fresh v_projectId); [now apply wf_fresh|done]|].
  split; [reflexivity|].
  (* the fields of the row, read off the update of lines 134-137 *)
  split; [reflexivity|]. split; [reflexivity|]. split; [reflexivity|].
  split; [reflexivity|]. split; reflexivity.
Qed.

(** C3. When the output of the generation is empty once sanitised (and no
    call is rejected), the balance is 5 lower when the response has been
    sent and the refund of the detached task brings it back to its value
    before the request; no version is created, and the project is still
    there, as it was created, with its four conversation entries, the last
    of which is the assistant's failure notice. *)
Theorem empty_output_refunded env userId prompt w0 uid u e code :
  store_wf (db w0) = true ->
  (forall site, fault env site = None) ->
  authenticated userId = Some uid ->
  JsString.truthy (JsString.trim prompt) = true ->
  user (db w0) !! uid = Some u -> 5 <= credits u ->
  ai env (Enhance prompt) = Ok e ->
  ai env (Generate (enhanced_or prompt e)) = Ok code ->
  sanitize (default [] code) = [] ->
  let pid := next_id (db w0) in
  exists w1 w2 j p',
    createUserProject_sync env userId (Some prompt) w0 =
      (Ok (json (ProjectIdBody pid), Some j), w1) /\
    background env j w1 = (Ok tt, w2) /\
    createUserProject env userId (Some prompt) w0 =
      (Ok (json (ProjectIdBody pid)), w2) /\
    balance w0 uid = Some (credits u) /\
    balance w1 uid = Some (credits u - 5) /\
    balance w2 uid = Some (credits u - 5 + 5) /\
    balance w2 uid = Some (credits u) /\
    version (db w2) = version (db w0) /\
    versions_of w2 pid = [] /\
    project_of w2 pid = Some p' /\
    p_userId p' = uid /\
    p_initial_prompt p' = prompt /\
    current_code p' = None /\
    current_version_index p' = None /\
    p' = new_project (project_name prompt) prompt uid /\
    transcript w2 pid =
      [(RoleUser, prompt);
       (RoleAssistant, msg_enhanced (enhanced_or prompt e));
       (RoleAssistant, msg_start);
       (RoleAssistant, msg_failure)].
Proof.
  intros Hwf Hf Ha Hp Hu Hc He Hcode Ht pid.
  destruct (sync_succeeds env userId prompt w0 uid u) as [w1 Hs]; try done.
  destruct (sync_started _ _ _ _ _ _ _ Hs)
    as (uid' & p' & u' & Ha' & Hp' & Hu' & _ & _ & _ & Hb & Hpr & Hv & Hcv & _).
  simplify_eq. apply balance_user in Hb as (u1 & Hu1 & Hcr).
  destruct (generation_completes env
              {| job_userId := uid; job_prompt := p';
                 job_projectId := next_id (db w0) |}
              w1 u1 _ e code Hf Hu1 Hpr He Hcode)
    as (w2 & Hg & _ & _ & Hcase).
  simpl in Hcase. rewrite Ht in Hcase. simpl in Hcase.
  destruct Hcase as (Hus & Hver & Hproj & Hconv).
  pose proof (background_ok _ _ _ _ Hg) as Hbg.
  destruct (wf_fresh _ Hwf) as [Hnv Hnc].
  exists w1, w2,
    {| job_userId := uid; job_prompt := p';
       job_projectId := next_id (db w0) |},
    (new_project (project_name p') p' uid).
  split; [exact Hs|]. split; [exact Hbg|].
  split; [now apply (createUserProject_run _ _ _ _ _ _ _ _ Hs)|].
  subst pid.
  unfold balance, transcript, entries_of, versions_of, project_of in *.
  rewrite Hus, Hu1, Hu, Hver, Hv, Hproj, Hpr, Hconv, Hcv, lookup_insert_eq.
  simpl. rewrite Hcr.
  split; [done|]. split; [done|]. split; [done|].
  split; [f_equal; lia|]. split; [done|]. split; [exact Hnv|].
  split; [reflexivity|].
  split; [reflexivity|]. split; [reflexivity|]. split; [reflexivity|].
  split; [reflexivity|]. split; [reflexivity|].
  rewrite <- app_assoc, filter_app, Hnc. simpl.
  rewrite !filter_cons_True by done. done.
Qed.

(** C4. For a user with fewer than 5 credits a generation request leaves
    the store as it is (no project, no debit, no conversation entry) and sends
    nothing to the completion service; when the request carries a prompt and
    the user lookup is not rejected, the answer is 403 with the message that
    asks for more credits, and the world is unchanged altogether. *)
Theorem insufficient_credits env userId prompt w uid u :
  authenticated userId = Some uid ->
  user (db w) !! uid = Some u ->
  credits u < 5 ->
  let r := createUserProject env userId prompt w in
  db r.2 = db w /\ ai_calls r.2 = ai_calls w /\
  (forall p,
     prompt = Some p -> JsString.truthy (JsString.trim p) = true ->
     fault env FindUser = None ->
     r = (Ok (status_json 403
                (Message "Add credits to create more projects")), w)).
Proof.
  intros Ha Hu Hc. apply Z.ltb_lt in Hc. cbv zeta.
  unfold_calls. rewrite Ha.
  destruct prompt as [p|]; simpl;
    [|repeat split; intros; simplify_eq].
  destruct (JsString.truthy (JsString.trim p)) eqn:Hp; simpl;
    [|repeat split; intros; simplify_eq; congruence].
  destruct (fault env FindUser) eqn:Hf; simpl;
    [repeat split; intros; simplify_eq|].
  rewrite Hu, Hc. simpl. repeat split.
Qed.

(** C9. A request of [getUserProject] by somebody who does not own the
    project has the very outcome (response, store, console) of the same
    request for an identifier that no project has. *)
Theorem foreign_project_as_missing env userB projectId missingId w p :
  websiteProject (db w) !! projectId = Some p ->
  authenticated userB <> Some (p_userId p) ->
  websiteProject (db w) !! missingId = None ->
  getUserProject env userB projectId w = getUserProject env userB missingId w.
Proof.
  intros Hp Hb Hm. unfold_calls.
  destruct (authenticated userB) as [uid|]; [|done].
  destruct (fault env ProjectFind); simpl; [done|].
  rewrite Hp, Hm. rewrite decide_False by congruence. done.
Qed.

(** C10. For an authenticated caller without a user row, [getUserCredits]
    answers 200 with a balance of 0 and changes nothing. *)
Theorem credits_of_unknown_user env userId uid w :
  authenticated userId = Some uid ->
  user (db w) !! uid = None ->
  fault env CreditsFindUser = None ->
  getUserCredits env userId w = (Ok (json (CreditsBody 0)), w).
Proof.
  intros Ha Hu Hf. unfold_calls. rewrite Ha, Hf. simpl. now rewrite Hu.
Qed.

(** The [try] block never writes to the console. *)
Lemma generation_console env j w o w' :
  generation env j w = (o, w') -> console w' = console w.
Proof. intros H. run_in H; simplify_eq; done. Qed.

(** When the enhancement call is rejected, nothing else has happened. *)
Lemma generation_enhance_throws env j w e :
  ai env (Enhance (job_prompt j)) = Throw e ->
  generation env j w =
  (Throw e, {| db := db w; console := console w;
               ai_calls := ai_calls w ++ [Enhance (job_prompt j)] |}).
Proof. intros He. unfold_calls. now rewrite He. Qed.

(** Once the two notices are written, the generation request is sent. *)
Lemma generation_reaches_completion env j w content o w' :
  ai env (Enhance (job_prompt j)) = Ok content ->
  fault env LogEnhanced = None -> fault env LogStart = None ->
  generation env j w = (o, w') ->
  ai_calls w' =
  ai_calls w ++ [Enhance (job_prompt j);
                 Generate (enhanced_or (job_prompt j) content)].
Proof.
  intros He H1 H2 H. run_in H; simplify_eq; simpl.
  all: now rewrite <- app_assoc.
Qed.

(** The refund of the empty-output path is rejected: the [try] block ends
    with that error. *)
Lemma generation_refund_rejected env j w content code e :
  ai env (Enhance (job_prompt j)) = Ok content ->
  fault env LogEnhanced = None -> fault env LogStart = None ->
  ai env (Generate (enhanced_or (job_prompt j) content)) = Ok code ->
  sanitize (default [] code) = [] ->
  fault env LogFailure = None ->
  fault env RefundEmpty = Some e ->
  exists w', generation env j w = (Throw e, w').
Proof.
  intros He H1 H2 Hc Hs H3 H4. unfold_calls.
  rewrite He. simpl. rewrite H1, H2. simpl. rewrite Hc. simpl.
  rewrite Hs. simpl. rewrite H3, H4. simpl. eauto.
Qed.

Lemma background_run env j w :
  (exists w', generation env j w = (Ok tt, w') /\
              background env j w = (Ok tt, w')) \/
  (exists e w', generation env j w = (Throw e, w')).
Proof.
  destruct (generation env j w) as [[[]|e] w'] eqn:H; [left|right]; eauto.
  eexists. split; [done|]. unfold background, try_catch. now rewrite H.
Qed.

(** C1, amended. After a successful debit: when no call is rejected, exactly
    one of the two outcomes holds (a version without a refund, or a refund of
    5 without a version); when the [try] block throws while no version of the
    project exists, none exists at the end and the refund of 5 is credited
    provided the refund call is not rejected; in every case the balance ends
    at its debited value or exactly 5 above it, and the project has at most
    one version. *)
Theorem debit_matched_amended env userId prompt w0 res j w1 :
  store_wf (db w0) = true ->
  createUserProject_sync env userId prompt w0 = (Ok (res, Some j), w1) ->
  let w2 := (background env j w1).2 in
  (no_fault env -> debit_matched w1 w2 j) /\
  (forall e w',
     generation env j w1 = (Throw e, w') -> ~ version_persisted w' j ->
     ~ version_persisted w2 j /\
     (fault env RefundCatch = None -> refund_credited w1 w2 j)) /\
  (exists b, balance w1 (job_userId j) = Some b /\
             (balance w2 (job_userId j) = Some b \/
              balance w2 (job_userId j) = Some (b + 5))) /\
  (length (versions_of w2 (job_projectId j)) <= 1)%nat.
Proof.
  intros Hwf Hs.
  destruct (sync_started _ _ _ _ _ _ _ Hs)
    as (uid & p & u & _ & _ & _ & _ & _ & -> & Hb & Hpr & Hv & _).
  assert (versions_of w1 (next_id (db w0)) = []) as Hnil.
  { unfold versions_of. rewrite Hv. now apply wf_fresh. }
  destruct (balance_user _ _ _ Hb) as (u1 & Hu1 & Hcr).
  cbv zeta. simpl. repeat split.
  - intros [Hf Hai].
    destruct (Hai (Enhance p)) as [e He].
    destruct (Hai (Generate (enhanced_or p e))) as [code Hcode].
    destruct (generation_completes env
                {| job_userId := uid; job_prompt := p;
                   job_projectId := next_id (db w0) |}
                w1 u1 _ e code Hf Hu1 Hpr He Hcode)
      as (w2 & Hg & _ & _ & Hcase).
    rewrite (background_ok _ _ _ _ Hg). simpl in *.
    unfold debit_matched, version_persisted, refund_credited, balance.
    unfold versions_of in *. simpl.
    destruct (JsString.truthy _).
    + destruct Hcase as (Hus & Hver & _). left. rewrite Hus, Hver, Hu1.
      rewrite filter_app, Hnil, filter_cons_True by done. simpl.
      split; [done|]. intros (b & ? & ?). simplify_eq. lia.
    + destruct Hcase as (Hus & Hver & _). right. rewrite Hus, Hver, Hu1.
      rewrite lookup_insert_eq. simpl. split; [eauto|]. tauto.
  - destruct (background_catch _ _ _ _ _ H) as (w2 & -> & _ & _ & Hver & _).
    unfold version_persisted, versions_of in *. simpl in *.
    now rewrite Hver.
  - intros Hrc.
    destruct (background_catch _ _ _ _ _ H) as (w2 & -> & _ & _ & _ & _ & Hus).
    exists (credits u - 5). split; [done|]. unfold balance. simpl.
    rewrite Hus, Hrc. simpl. rewrite Hu1, lookup_insert_eq. simpl.
    f_equal. lia.
  - destruct (background env _ w1) as [o w2] eqn:Hbg.
    destruct (background_outcomes env
                {| job_userId := uid; job_prompt := p;
                   job_projectId := next_id (db w0) |} w1 _ o w2 Hb Hbg)
      as (_ & Hbal & _).
    eauto.
  - destruct (background env _ w1) as [o w2] eqn:Hbg.
    destruct (background_outcomes env
                {| job_userId := uid; job_prompt := p;
                   job_projectId := next_id (db w0) |} w1 _ o w2 Hb Hbg)
      as (_ & _ & [Hver | (v & Hv1 & Hver)]);
      unfold versions_of in *; simpl in *; rewrite Hver.
    + rewrite Hnil. simpl. lia.
    + rewrite filter_app, Hnil. simpl.
      rewrite filter_cons_True by done. simpl. lia.
Qed.

(** C5, amended. When no store call is rejected, a generation that runs to
    its end leaves exactly four entries: the user's prompt, the
    enhanced-prompt notice, the start notice, and then the success notice or,
    on empty output, the failure notice. When the enhancement call is
    rejected, the user's prompt is the only entry. *)
Theorem entry_count_amended env userId prompt w0 res j w1 :
  store_wf (db w0) = true ->
  createUserProject_sync env userId prompt w0 = (Ok (res, Some j), w1) ->
  (forall site, fault env site = None) ->
  let w2 := (background env j w1).2 in
  let p := job_prompt j in
  (forall e code,
     ai env (Enhance p) = Ok e ->
     ai env (Generate (enhanced_or p e)) = Ok code ->
     transcript w2 (job_projectId j) =
       [(RoleUser, p);
        (RoleAssistant, msg_enhanced (enhanced_or p e));
        (RoleAssistant, msg_start);
        (RoleAssistant,
          if JsString.truthy (sanitize (default [] code))
          then msg_success else msg_failure)]) /\
  (forall err,
     ai env (Enhance p) = Throw err ->
     transcript w2 (job_projectId j) = [(RoleUser, p)]).
Proof.
  intros Hwf Hs Hf.
  destruct (sync_started _ _ _ _ _ _ _ Hs)
    as (uid & p & u & _ & _ & _ & _ & _ & -> & Hb & Hpr & _ & Hcv & _).
  destruct (balance_user _ _ _ Hb) as (u1 & Hu1 & _).
  destruct (wf_fresh _ Hwf) as [_ Hnil].
  cbv zeta. simpl. split.
  - intros e code He Hcode.
    destruct (generation_completes env
                {| job_userId := uid; job_prompt := p;
                   job_projectId := next_id (db w0) |}
                w1 u1 _ e code Hf Hu1 Hpr He Hcode)
      as (w2 & Hg & _ & _ & Hcase).
    rewrite (background_ok _ _ _ _ Hg). simpl in *.
    unfold transcript, entries_of.
    destruct (JsString.truthy _); destruct Hcase as (_ & _ & _ & ->).
    all: rewrite Hcv, <- app_assoc, filter_app, Hnil; simpl.
    all: rewrite !filter_cons_True by done; done.
  - intros err He.
    pose proof (generation_enhance_throws env
                  {| job_userId := uid; job_prompt := p;
                     job_projectId := next_id (db w0) |} w1 err He) as Hg.
    destruct (background_catch _ _ _ _ _ Hg) as (w2 & -> & _ & _ & _ & Hc & _).
    unfold transcript, entries_of. simpl in *.
    rewrite Hc, Hcv, filter_app, Hnil. simpl.
    rewrite filter_cons_True by done. done.
Qed.

(** C6, amended. The detached task always ends normally, whatever is
    rejected; the balance ends at its value after the debit or exactly 5
    above it, so the debit is never repeated and no more than one refund is
    credited. A run of the [try] block that ends normally writes nothing to
    the console; one that throws leaves exactly one console line, that of the
    error thrown, and a balance that depends only on whether the refund of the
    [catch] block is rejected, about which nothing is written. The rejection
    of the refund of the empty-output path is such an error, and is
    logged. *)
Theorem refund_failure_amended env j w b :
  balance w (job_userId j) = Some b ->
  let r := background env j w in
  r.1 = Ok tt /\
  (balance r.2 (job_userId j) = Some b \/
   balance r.2 (job_userId j) = Some (b + 5)) /\
  (forall w', generation env j w = (Ok tt, w') -> console r.2 = console w) /\
  (forall e w',
     generation env j w = (Throw e, w') ->
     console r.2 = console w ++ [line_of e] /\
     balance r.2 (job_userId j) =
       Some (match fault env RefundCatch with
             | Some _ => b
             | None => b + 5
             end)) /\
  (forall content code e,
     ai env (Enhance (job_prompt j)) = Ok content ->
     fault env LogEnhanced = None -> fault env LogStart = None ->
     ai env (Generate (enhanced_or (job_prompt j) content)) = Ok code ->
     sanitize (default [] code) = [] ->
     fault env LogFailure = None ->
     fault env RefundEmpty = Some e ->
     logged r.2 e).
Proof.
  intros Hb. cbv zeta.
  destruct (balance_user _ _ _ Hb) as (u & Hu & <-).
  assert (forall e w', generation env j w = (Throw e, w') ->
            console (background env j w).2 = console w ++ [line_of e] /\
            balance (background env j w).2 (job_userId j) =
              Some (match fault env RefundCatch with
                    | Some _ => credits u
                    | None => credits u + 5
                    end)) as Hthrow.
  { intros e w' Hg.
    destruct (background_catch _ _ _ _ _ Hg) as (w2 & -> & Hc & _ & _ & _ & Hus).
    simpl. split; [done|]. unfold balance. rewrite Hus, Hu.
    destruct (fault env RefundCatch); [now rewrite Hu|].
    now rewrite lookup_insert_eq. }
  destruct (background env j w) as [o w2] eqn:Hbg.
  destruct (background_outcomes _ _ _ _ _ _ Hb Hbg) as (-> & Hbal & _).
  simpl in *. repeat split; try done.
  - intros w' Hg. rewrite (background_ok _ _ _ _ Hg) in Hbg.
    simplify_eq. eapply generation_console, Hg.
  - now apply (Hthrow e w').
  - now apply (Hthrow e w').
  - intros content code e He H1 H2 Hc Hs H3 H4.
    destruct (generation_refund_rejected env j w content code e) as [w' Hg];
      try done.
    destruct (Hthrow e w' Hg) as [Hcon _].
    exists (line_of e). rewrite Hcon. split.
    + apply elem_of_app. right. apply list_elem_of_here.
    + unfold line_of. apply list_elem_of_further, list_elem_of_here.
Qed.

(** C7, amended. An enhancement that answers with nothing ([null], or
    blanks only) leaves the original prompt as the enhanced prompt, and once
    the two notices are written the generation request is sent with it. An
    enhancement call that is rejected ends the task there: no generation
    request is sent, no entry and no version is written, the error is logged,
    and the refund of 5 is credited when the refund call is not rejected. *)
Theorem enhance_fallback_amended env j w :
  let r := background env j w in
  let p := job_prompt j in
  (forall content,
     ai env (Enhance p) = Ok content -> empty_answer content = true ->
     enhanced_or p content = p /\
     (fault env LogEnhanced = None -> fault env LogStart = None ->
      ai_calls r.2 = ai_calls w ++ [Enhance p; Generate p])) /\
  (forall e,
     ai env (Enhance p) = Throw e ->
     ai_calls r.2 = ai_calls w ++ [Enhance p] /\
     conversation (db r.2) = conversation (db w) /\
     version (db r.2) = version (db w) /\
     console r.2 = console w ++ [line_of e] /\
     (fault env RefundCatch = None ->
      forall b, balance w (job_userId j) = Some b ->
                balance r.2 (job_userId j) = Some (b + 5))).
Proof.
  cbv zeta. split.
  - intros content He Hempty.
    assert (enhanced_or (job_prompt j) content = job_prompt j) as Heq.
    { unfold enhanced_or, empty_answer in *. destruct content as [c|]; [|done].
      apply negb_true_iff in Hempty. now rewrite Hempty. }
    split; [done|]. intros H1 H2.
    assert (ai_calls (background env j w).2 =
            ai_calls w ++ [Enhance (job_prompt j);
                           Generate (enhanced_or (job_prompt j) content)])
      as Hcalls; [|now rewrite Heq in Hcalls].
    destruct (background_run env j w) as [(w' & Hg & ->) | (e & w' & Hg)].
    + eapply generation_reaches_completion; eauto.
    + destruct (background_catch _ _ _ _ _ Hg) as (w2 & -> & _ & Ha & _).
      simpl. rewrite Ha. eapply generation_reaches_completion; eauto.
  - intros e He.
    pose proof (generation_enhance_throws env j w e He) as Hg.
    destruct (background_catch _ _ _ _ _ Hg)
      as (w2 & -> & Hc & Ha & Hv & Hcv & Hus).
    simpl in *. repeat split; try done.
    intros Hrc b Hb. destruct (balance_user _ _ _ Hb) as (u & Hu & <-).
    unfold balance. rewrite Hus, Hrc, Hu, lookup_insert_eq. done.
Qed.

(** ** The scenario *)

(** C1 fails as stated: the page is generated and its version stored, then
    the write of the last notice is rejected; the user gets the refund and
    keeps the version. *)
Lemma debit_matched_counterexample :
  createUserProject_sync env_notice_fails (Some "alice") (Some prompt0) world0
  = (Ok (json (ProjectIdBody 0), Some job0), world1) /\
  version_persisted (world2 env_notice_fails) job0 /\
  refund_credited world1 (world2 env_notice_fails) job0 /\
  ~ debit_matched world1 (world2 env_notice_fails) job0.
Proof.
  assert (version_persisted (world2 env_notice_fails) job0) as Hv.
  { unfold version_persisted. vm_compute. discriminate. }
  assert (refund_credited world1 (world2 env_notice_fails) job0) as Hr.
  { exists 5. split; vm_compute; reflexivity. }
  split; [vm_compute; reflexivity|]. split; [exact Hv|]. split; [exact Hr|].
  intros [[_ Hn] | [_ Hn]]; auto.
Qed.

(** The other way round: the enhancement call and the refund of the [catch]
    block are both rejected, and the debit is matched by nothing. *)
Example debit_unmatched_when_refund_rejected :
  ~ version_persisted (world2 env_refund_fails) job0 /\
  balance world1 "alice" = Some 5 /\
  balance (world2 env_refund_fails) "alice" = Some 5.
Proof.
  split; [|split; vm_compute; reflexivity].
  intros H. apply H. vm_compute. reflexivity.
Qed.

Lemma debit_matched_amended_witness :
  (no_fault env_page -> debit_matched world1 (world2 env_page) job0) /\
  (forall e w',
     generation env_page job0 world1 = (Throw e, w') ->
     ~ version_persisted w' job0 ->
     ~ version_persisted (world2 env_page) job0 /\
     (fault env_page RefundCatch = None ->
      refund_credited world1 (world2 env_page) job0)) /\
  (exists b, balance world1 (job_userId job0) = Some b /\
             (balance (world2 env_page) (job_userId job0) = Some b \/
              balance (world2 env_page) (job_userId job0) = Some (b + 5))) /\
  (length (versions_of (world2 env_page) (job_projectId job0)) <= 1)%nat.
Proof.
  apply (debit_matched_amended env_page (Some "alice") (Some prompt0) world0
           (json (ProjectIdBody 0)) job0 world1).
  - reflexivity.
  - vm_compute. reflexivity.
Defined.

Lemma successful_generation_witness :
  exists w2 v p',
    createUserProject env_page (Some "alice") (Some prompt0) world0 =
      (Ok (json (ProjectIdBody 0)), w2) /\
    balance world0 "alice" = Some 10 /\
    balance w2 "alice" = Some (10 - 5) /\
    v_code v = JsString.lit "<h1>Portfolio</h1>" /\
    v_projectId v = 0%nat /\
    version (db w2) = [] ++ [v] /\
    versions_of w2 0 = [v] /\
    project_of w2 0 = Some p' /\
    current_code p' = Some (v_code v) /\
    current_code p' = Some (JsString.lit "<h1>Portfolio</h1>") /\
    current_version_index p' = Some (v_id v) /\
    p_userId p' = "alice" /\
    p_initial_prompt p' = prompt0 /\
    p' = set_current (JsString.lit "<h1>Portfolio</h1>") (v_id v)
           (new_project (project_name prompt0) prompt0 "alice").
Proof.
  apply (successful_generation env_page (Some "alice") prompt0 world0 "alice"
           alice None (Some page)).
  - reflexivity.
  - intros site. reflexivity.
  - reflexivity.
  - reflexivity.
  - reflexivity.
  - vm_compute. discriminate.
  - reflexivity.
  - reflexivity.
  - reflexivity.
Defined.

Lemma empty_output_refunded_witness :
  exists w1 w2 j p',
    createUserProject_sync env_empty (Some "alice") (Some prompt0) world0 =
      (Ok (json (ProjectIdBody 0), Some j), w1) /\
    background env_empty j w1 = (Ok tt, w2) /\
    createUserProject env_empty (Some "alice") (Some prompt0) world0 =
      (Ok (json (ProjectIdBody 0)), w2) /\
    balance world0 "alice" = Some 10 /\
    balance w1 "alice" = Some (10 - 5) /\
    balance w2 "alice" = Some (10 - 5 + 5) /\
    balance w2 "alice" = Some 10 /\
    version (db w2) = [] /\
    versions_of w2 0 = [] /\
    project_of w2 0 = Some p' /\
    p_userId p' = "alice" /\
    p_initial_prompt p' = prompt0 /\
    current_code p' = None /\
    current_version_index p' = None /\
    p' = new_project (project_name prompt0) prompt0 "alice" /\
    transcript w2 0 =
      [(RoleUser, prompt0);
       (RoleAssistant, msg_enhanced prompt0);
       (RoleAssistant, msg_start);
       (RoleAssistant, msg_failure)].
Proof.
  apply (empty_output_refunded env_empty (Some "alice") prompt0 world0 "alice"
           alice None (Some only_fences)).
  - reflexivity.
  - intros site. reflexivity.
  - reflexivity.
  - reflexivity.
  - reflexivity.
  - vm_compute. discriminate.
  - reflexivity.
  - reflexivity.
  - reflexivity.
Defined.

Lemma insufficient_credits_witness :
  db (createUserProject env_page (Some "bob") (Some prompt0) world_bob).2
  = db world_bob /\
  createUserProject env_page (Some "bob") (Some prompt0) world_bob =
  (Ok (status_json 403 (Message "Add credits to create more projects")),
   world_bob).
Proof.
  destruct (insufficient_credits env_page (Some "bob") (Some prompt0)
              world_bob "bob" {| credits := 3; totalCreation := 0 |})
    as (Hdb & _ & Hres).
  - reflexivity.
  - vm_compute. reflexivity.
  - reflexivity.
  - split; [exact Hdb|]. apply (Hres prompt0); reflexivity.
Defined.

(** C5 fails as stated: a run whose output is empty once sanitised leaves
    four entries, neither three nor two. *)
Lemma entry_count_counterexample :
  sanitize only_fences = [] /\
  createUserProject_sync env_empty (Some "alice") (Some prompt0) world0
  = (Ok (json (ProjectIdBody 0), Some job0), world1) /\
  (background env_empty job0 world1).1 = Ok tt /\
  balance (world2 env_empty) "alice" = Some 10 /\
  length (entries_of (world2 env_empty) 0) = 4%nat /\
  ~ (length (entries_of (world2 env_empty) 0) = 3%nat \/
     length (entries_of (world2 env_empty) 0) = 2%nat).
Proof.
  assert (length (entries_of (world2 env_empty) 0) = 4%nat) as H
    by (vm_compute; reflexivity).
  repeat split; try (vm_compute; reflexivity).
  rewrite H. intros [?|?]; discriminate.
Qed.

Lemma entry_count_amended_witness :
  (forall e code,
     ai env_empty (Enhance prompt0) = Ok e ->
     ai env_empty (Generate (enhanced_or prompt0 e)) = Ok code ->
     transcript (world2 env_empty) 0 =
       [(RoleUser, prompt0);
        (RoleAssistant, msg_enhanced (enhanced_or prompt0 e));
        (RoleAssistant, msg_start);
        (RoleAssistant,
          if JsString.truthy (sanitize (default [] code))
          then msg_success else msg_failure)]) /\
  (forall err,
     ai env_empty (Enhance prompt0) = Throw err ->
     transcript (world2 env_empty) 0 = [(RoleUser, prompt0)]).
Proof.
  apply (entry_count_amended env_empty (Some "alice") (Some prompt0) world0
           (json (ProjectIdBody 0)) job0 world1).
  - reflexivity.
  - vm_compute. reflexivity.
  - intros site. reflexivity.
Defined.

(** C6 fails as stated: the refund of the [catch] block is rejected, and the
    console holds the line of the first error only. *)
Lemma refund_failure_counterexample :
  fault env_refund_fails RefundCatch = Some db_down /\
  balance (world2 env_refund_fails) "alice" = balance world1 "alice" /\
  console (world2 env_refund_fails) = [line_of econnreset] /\
  ~ logged (world2 env_refund_fails) db_down.
Proof.
  repeat split; try (vm_compute; reflexivity).
  intros (line & Hline & Htext).
  assert (console (world2 env_refund_fails) = [line_of econnreset]) as Hc
    by (vm_compute; reflexivity).
  rewrite Hc in Hline. apply list_elem_of_singleton in Hline. subst line.
  vm_compute in Htext.
  apply list_elem_of_In in Htext. simpl in Htext.
  destruct Htext as [?|[?|[]]]; discriminate.
Qed.

Lemma refund_failure_amended_witness :
  (background env_first_refund_fails job0 world1).1 = Ok tt /\
  (balance (world2 env_first_refund_fails) "alice" = Some 5 \/
   balance (world2 env_first_refund_fails) "alice" = Some (5 + 5)) /\
  logged (world2 env_first_refund_fails) db_down.
Proof.
  destruct (refund_failure_amended env_first_refund_fails job0 world1 5)
    as (H1 & H2 & _ & _ & H5).
  - vm_compute. reflexivity.
  - split; [exact H1|]. split; [exact H2|].
    apply (H5 None (Some only_fences) db_down); reflexivity.
Defined.

(** C7 fails as stated: the enhancement call is rejected, no generation
    request follows, and the user is refunded. *)
Lemma enhance_failure_counterexample :
  ai env_enhance_down (Enhance prompt0) = Throw econnreset /\
  ai_calls (world2 env_enhance_down) = [Enhance prompt0] /\
  ~ (exists p, Generate p ∈ ai_calls (world2 env_enhance_down)) /\
  refund_credited world1 (world2 env_enhance_down) job0.
Proof.
  assert (ai_calls (world2 env_enhance_down) = [Enhance prompt0]) as Hc
    by (vm_compute; reflexivity).
  repeat split; try (vm_compute; reflexivity).
  - rewrite Hc. intros [p Hp]. apply list_elem_of_singleton in Hp.
    discriminate.
  - exists 5. split; vm_compute; reflexivity.
Qed.

Lemma enhance_fallback_amended_witness :
  (enhanced_or prompt0 (Some (JsString.lit "  ")) = prompt0 /\
   ai_calls (world2 env_blank) =
     ai_calls world1 ++ [Enhance prompt0; Generate prompt0]) /\
  (ai_calls (world2 env_enhance_down) = ai_calls world1 ++ [Enhance prompt0] /\
   balance (world2 env_enhance_down) "alice" = Some (5 + 5)).
Proof.
  split.
  - destruct (enhance_fallback_amended env_blank job0 world1) as [H _].
    destruct (H (Some (JsString.lit "  "))) as [Heq Hcalls];
      [reflexivity | reflexivity |].
    split; [exact Heq | apply Hcalls; reflexivity].
  - destruct (enhance_fallback_amended env_enhance_down job0 world1)
      as [_ H].
    destruct (H econnreset) as (Hcalls & _ & _ & _ & Hbal); [reflexivity|].
    split; [exact Hcalls|]. apply Hbal; [reflexivity|].
    vm_compute. reflexivity.
Defined.

Lemma foreign_project_as_missing_witness :
  getUserProject env_page (Some "bob") 0 world_bob =
  getUserProject env_page (Some "bob") 7 world_bob.
Proof.
  apply (foreign_project_as_missing env_page (Some "bob") 0 7 world_bob
           (new_project (project_name prompt0) prompt0 "alice")).
  - vm_compute. reflexivity.
  - vm_compute. discriminate.
  - vm_compute. reflexivity.
Defined.

Lemma credits_of_unknown_user_witness :
  getUserCredits env_page (Some "carol") world_bob =
  (Ok (json (CreditsBody 0)), world_bob).
Proof.
  apply (credits_of_unknown_user env_page (Some "carol") "carol" world_bob).
  - reflexivity.
  - vm_compute. reflexivity.
  - reflexivity.
Defined.

Lemma sanitize_idempotent_witness :
  clean (JsString.lit "<h1>Portfolio</h1>") = true /\
  sanitize (JsString.lit "<h1>Portfolio</h1>")
  = JsString.lit "<h1>Portfolio</h1>" /\
  sanitize (sanitize page) = sanitize page.
Proof.
  split; [reflexivity|]. split.
  - apply (proj1 (sanitize_idempotent (JsString.lit "<h1>Portfolio</h1>"))).
    reflexivity.
  - apply (proj2 (sanitize_idempotent page)).
Defined.

Import ScenarioX.

(** * Further properties *)

(** ** The string operations *)

Module JsStringMore.
Import JsString JsStringFacts.

Lemma replace_from_sublist re n s : replace_from re n s `sublist_of` s.
Proof.
  revert n. induction s as [|c r IH]; intros n; simpl; [constructor|].
  destruct n as [|k]; [|now apply sublist_cons].
  destruct (re (c :: r)); [now apply sublist_cons | now apply sublist_skip].
Qed.

Lemma trim_sublist s : trim s `sublist_of` s.
Proof.
  destruct (trim_infix s) as (k1 & k2 & Hk). rewrite Hk at 2.
  apply sublist_inserts_l, sublist_inserts_r. reflexivity.
Qed.

Lemma drop_while_nil p s :
  drop_while p s = [] <-> forallb p s = true.
Proof.
  induction s as [|c r IH]; simpl; [done|].
  destruct (p c); simpl; [done|]. split; discriminate.
Qed.

Lemma trim_nil s : trim s = [] <-> forallb is_space s = true.
Proof.
  unfold trim, trimEnd, trimStart. split.
  - intros H. apply drop_while_nil.
    pose proof (drop_while_head is_space s) as Hh.
    destruct (drop_while is_space s) as [|c r] eqn:E; [done|].
    apply (f_equal (@rev N)) in H. rewrite rev_involutive in H. simpl in H.
    apply drop_while_nil in H. rewrite forallb_app in H. simpl in H.
    rewrite Hh in H. now rewrite !andb_false_r in H.
  - intros H. apply drop_while_nil in H. now rewrite H.
Qed.

Lemma trim_starts s : starts_space (trim s) = false.
Proof.
  pose proof (trimStart_trimEnd (trimStart s) (drop_while_idem _ s)) as H.
  fold (trim s) in H. pose proof (drop_while_head is_space (trim s)) as Hh.
  unfold trimStart in H. rewrite H in Hh.
  destruct (trim s); [done|]. exact Hh.
Qed.

Lemma trim_ends s : ends_space (trim s) = false.
Proof.
  unfold ends_space, trim, trimEnd. rewrite rev_involutive.
  pose proof (drop_while_head is_space (rev (trimStart s))) as Hh.
  destruct (drop_while is_space (rev (trimStart s))); [done|]. exact Hh.
Qed.

End JsStringMore.

(** X1. Whatever the service returns, the sanitised output holds no run of
    three backticks and neither starts nor ends with white space. *)
Theorem sanitize_clean (raw : jsstring) : clean (sanitize raw) = true.
Proof.
  unfold clean. rewrite sanitize_no_fence. simpl.
  unfold sanitize.
  now rewrite JsStringMore.trim_starts, JsStringMore.trim_ends.
Qed.

(** X2. The second [replace], for a fence at the end of the input, never
    changes anything: the first has removed every fence already. *)
Theorem second_replace_noop (raw : jsstring) :
  JsString.replace_all JsString.re_fence_end
    (JsString.replace_all JsString.re_fence_open raw)
  = JsString.replace_all JsString.re_fence_open raw.
Proof.
  apply JsStringFacts.replace_end_id, JsStringFacts.no_fence_replace_open.
Qed.

(** X3. Sanitising only removes code units: the output is the input with
    some code units left out, in the same order. *)
Theorem sanitize_sublist (raw : jsstring) : sanitize raw `sublist_of` raw.
Proof.
  unfold sanitize. etrans; [apply JsStringMore.trim_sublist|].
  etrans; apply JsStringMore.replace_from_sublist.
Qed.

(** X4. An output without any run of three backticks is only trimmed. *)
Theorem sanitize_without_fence (raw : jsstring) :
  JsString.no_fence raw = true -> sanitize raw = JsString.trim raw.
Proof.
  intros H. rewrite sanitize_trim_replace.
  now rewrite JsStringFacts.replace_open_id.
Qed.

Lemma sanitize_without_fence_witness :
  sanitize (JsString.lit "  <p>`code`</p> ")
  = JsString.trim (JsString.lit "  <p>`code`</p> ").
Proof. apply sanitize_without_fence. reflexivity. Defined.

(** X6. The name of a project is never longer than 50 code units: a prompt
    of at most 50 is taken as it is, a longer one gives its first 47 code
    units and three dots, 50 in all. *)
Theorem project_name_bounded (p : jsstring) :
  (length (project_name p) <= 50)%nat /\
  ((length p <= 50)%nat -> project_name p = p) /\
  ((50 < length p)%nat ->
   project_name p = take 47 p ++ JsString.lit "..." /\
   length (project_name p) = 50%nat).
Proof.
  unfold project_name, JsString.substring0.
  destruct (50 <? length p)%nat eqn:E.
  - apply Nat.ltb_lt in E.
    assert (length (take 47 p ++ JsString.lit "...") = 50%nat) as Hl.
    { rewrite length_app, length_take.
      change (length (JsString.lit "...")) with 3%nat. lia. }
    repeat split; try done; lia.
  - apply Nat.ltb_ge in E. repeat split; try done; lia.
Qed.

Lemma project_name_bounded_witness :
  project_name long_prompt
  = take 47 long_prompt ++ JsString.lit "..." /\
  length (project_name long_prompt) = 50%nat.
Proof.
  apply (proj2 (proj2 (project_name_bounded long_prompt))).
  vm_compute. lia.
Defined.

(** X7. For a prompt that passes the validation the enhanced prompt is never
    empty: it is the prompt itself, or the trimmed answer of the service. *)
Theorem enhanced_prompt_not_empty (p : jsstring) (content : option jsstring) :
  JsString.truthy (JsString.trim p) = true ->
  JsString.truthy (enhanced_or p content) = true /\
  (enhanced_or p content = p \/
   exists c, content = Some c /\ enhanced_or p content = JsString.trim c).
Proof.
  intros Hp.
  assert (JsString.truthy p = true) as Hp'.
  { destruct p; [discriminate|done]. }
  unfold enhanced_or. destruct content as [c|]; [|auto].
  destruct (JsString.truthy (JsString.trim c)) eqn:E; eauto.
Qed.

Lemma enhanced_prompt_not_empty_witness :
  JsString.truthy
    (enhanced_or prompt0 (Some (JsString.lit " a gallery of prints "))) = true
  /\ (enhanced_or prompt0 (Some (JsString.lit " a gallery of prints "))
      = prompt0 \/
      exists c, Some (JsString.lit " a gallery of prints ") = Some c /\
                enhanced_or prompt0 (Some (JsString.lit " a gallery of prints "))
                = JsString.trim c).
Proof. apply enhanced_prompt_not_empty. reflexivity. Defined.

(** ** What a run leaves alone *)

(** What the detached task can have done to the store when it ends. *)
Lemma background_frame env j w o w' :
  background env j w = (o, w') ->
  o = Ok tt /\
  (forall uid, uid <> job_userId j ->
               user (db w') !! uid = user (db w) !! uid) /\
  (user (db w') !! job_userId j = user (db w) !! job_userId j \/
   exists u, user (db w) !! job_userId j = Some u /\
             user (db w') !! job_userId j = Some (add_credits 5 u)) /\
  (exists es,
     conversation (db w') = conversation (db w) ++ es /\
     Forall (fun c => c_projectId c = job_projectId j) es) /\
  (forall pid, pid <> job_projectId j ->
               websiteProject (db w') !! pid = websiteProject (db w) !! pid) /\
  ((version (db w') = version (db w) /\
    websiteProject (db w') !! job_projectId j
    = websiteProject (db w) !! job_projectId j) \/
   exists v,
     v_projectId v = job_projectId j /\
     version (db w') = version (db w) ++ [v] /\
     (websiteProject (db w') !! job_projectId j
      = websiteProject (db w) !! job_projectId j \/
      exists p,
        websiteProject (db w) !! job_projectId j = Some p /\
        websiteProject (db w') !! job_projectId j
        = Some (set_current (v_code v) (v_id v) p))) /\
  (exists calls, ai_calls w' = ai_calls w ++ calls).
Proof.
  intros H. run_in H; simplify_eq; simpl.
  all: split; [reflexivity|].
  all: split; [intros uid Hne; now rewrite ?lookup_insert_ne by done|].
  all: split; [rewrite ?lookup_insert_eq; eauto|].
  all: split; [eexists; split;
                 [rewrite <- ?app_assoc; try reflexivity; symmetry; apply app_nil_r
                 |repeat constructor]|].
  all: split; [intros pid Hne; now rewrite ?lookup_insert_ne by done|].
  all: split; [|eexists; rewrite <- ?app_assoc; try reflexivity;
                 symmetry; apply app_nil_r].
  all: try (left; split; reflexivity).
  all: right; eexists; split; [|split; [reflexivity|]]; [reflexivity|].
  all: rewrite ?lookup_insert_eq; eauto.
Qed.

Ltac in_list :=
  repeat first [apply list_elem_of_here | apply list_elem_of_further].

(** The balance of every user is what it was, whatever else of the rows of
    the users has changed. *)
Ltac same_balance :=
  let uid := fresh "uid" in
  intros uid; unfold balance; simpl; try done;
  lazymatch goal with
  | |- context [<[?k := _]> _ !! uid] =>
      destruct (decide (uid = k)) as [->|];
      [rewrite !lookup_insert_eq; simpl;
       match goal with H : user _ !! k = Some _ |- _ => rewrite H end; done
      |rewrite !lookup_insert_ne by done; done]
  end.

(** What the handler has done when the response is sent. *)
Lemma sync_frame env userId prompt w o w1 :
  createUserProject_sync env userId prompt w = (o, w1) ->
  exists res job,
    o = Ok (res, job) /\
    ai_calls w1 = ai_calls w /\
    version (db w1) = version (db w) /\
    (forall uid, authenticated userId <> Some uid ->
                 user (db w1) !! uid = user (db w) !! uid) /\
    (forall pid, pid <> next_id (db w) ->
                 websiteProject (db w1) !! pid = websiteProject (db w) !! pid) /\
    (exists es,
       conversation (db w1) = conversation (db w) ++ es /\
       Forall (fun c => c_projectId c = next_id (db w)) es) /\
    match job with
    | Some j =>
        status res = 200%nat /\
        exists uid p u,
          authenticated userId = Some uid /\ prompt = Some p /\
          JsString.truthy (JsString.trim p) = true /\
          j = {| job_userId := uid; job_prompt := p;
                 job_projectId := next_id (db w) |} /\
          user (db w) !! uid = Some u /\ 5 <= credits u /\
          user (db w1) !! uid
          = Some (add_credits (-5) (add_totalCreation 1 u)) /\
          websiteProject (db w1) !! next_id (db w)
          = Some (new_project (project_name p) p uid)
    | None =>
        status res ∈ [400; 401; 403; 500]%nat /\
        (forall uid, balance w1 uid = balance w uid) /\
        (websiteProject (db w1) !! next_id (db w)
         = websiteProject (db w) !! next_id (db w) \/
         exists p uid,
           websiteProject (db w1) !! next_id (db w)
           = Some (new_project (project_name p) p uid))
    end.
Proof.
  intros H. run_in H; simplify_eq; simpl.
  all: do 2 eexists; split; [reflexivity|]; simpl.
  all: split; [reflexivity|]. all: split; [reflexivity|].
  all: split; [intros uid Hne; rewrite ?lookup_insert_ne by congruence; done|].
  all: split; [intros pid Hne; rewrite ?lookup_insert_ne by done; done|].
  all: split; [eexists; split;
                 [try reflexivity; symmetry; apply app_nil_r
                 |repeat constructor]|].
  all: lazymatch goal with
       | |- _ = 200%nat /\ _ =>
           split; [reflexivity|];
           apply negb_false_iff in Heqb; apply Z.ltb_ge in Heqb0;
           rewrite lookup_insert_eq;
           match goal with
           | Ha : authenticated _ = Some ?k, Hu : user _ !! ?k = Some ?u |- _ =>
               eexists k, _, u; repeat split; try done;
               apply lookup_insert_eq
           end
       | |- _ =>
           split; [in_list|]; split;
           [same_balance
           |first [left; reflexivity
                  |right; do 2 eexists; apply lookup_insert_eq]]
       end.
Qed.

(** The two ways a request for a project goes: answered without a task, or
    answered and followed by the task, which ends normally. *)
Lemma createUserProject_cases env userId prompt w :
  (exists res w1,
     createUserProject_sync env userId prompt w = (Ok (res, None), w1) /\
     createUserProject env userId prompt w = (Ok res, w1)) \/
  (exists res j w1 w2,
     createUserProject_sync env userId prompt w = (Ok (res, Some j), w1) /\
     background env j w1 = (Ok tt, w2) /\
     createUserProject env userId prompt w = (Ok res, w2)).
Proof.
  destruct (createUserProject_sync env userId prompt w) as [o w1] eqn:Hs.
  destruct (sync_frame _ _ _ _ _ _ Hs) as (res & [j|] & -> & _).
  - right. destruct (background env j w1) as [o w2] eqn:Hb.
    destruct (background_frame _ _ _ _ _ Hb) as [-> _].
    exists res, j, w1, w2. split; [done|]. split; [done|].
    now apply (createUserProject_run _ _ _ _ _ _ _ _ Hs).
  - left. exists res, w1. split; [done|].
    unfold createUserProject, mbind, M_bind. now rewrite Hs.
Qed.

Lemma not_200 (n : nat) : n ∈ [400; 401; 403; 500]%nat -> n <> 200%nat.
Proof.
  intros H ->. repeat (apply elem_of_cons in H as [H|H]; [discriminate|]).
  now apply elem_of_nil in H.
Qed.

(** X9. [createUserProject] always ends with a response, whatever is
    rejected, and its status is one of 200, 400, 401, 403 and 500. *)
Theorem create_always_answers env userId prompt w :
  exists res,
    (createUserProject env userId prompt w).1 = Ok res /\
    status res ∈ [200; 400; 401; 403; 500]%nat.
Proof.
  destruct (createUserProject_cases env userId prompt w)
    as [(res & w1 & Hs & ->) | (res & j & w1 & w2 & Hs & _ & ->)];
    exists res; (split; [done|]);
    destruct (sync_frame _ _ _ _ _ _ Hs)
      as (? & ? & [= <- <-] & _ & _ & _ & _ & _ & Hj).
  - destruct Hj as [Hj _]. now apply list_elem_of_further.
  - destruct Hj as [-> _]. apply list_elem_of_here.
Qed.

(** X10. A request for a project that is answered with anything but 200
    changes no balance, creates no version and sends nothing to the
    completion service. *)
Theorem create_error_costs_nothing env userId prompt w res w' :
  createUserProject env userId prompt w = (Ok res, w') ->
  status res <> 200%nat ->
  (forall uid, balance w' uid = balance w uid) /\
  ai_calls w' = ai_calls w /\
  version (db w') = version (db w).
Proof.
  intros H Hne.
  destruct (createUserProject_cases env userId prompt w)
    as [(res' & w1 & Hs & Hr) | (res' & j & w1 & w2 & Hs & _ & Hr)];
    rewrite Hr in H; simplify_eq;
    destruct (sync_frame _ _ _ _ _ _ Hs)
      as (? & ? & [= <- <-] & Hai & Hv & _ & _ & _ & Hj).
  - destruct Hj as (_ & Hb & _). done.
  - destruct Hj as [Hst _]. done.
Qed.

(** The handler is its two halves, one after the other. *)
Lemma sync_split env userId prompt w :
  createUserProject_sync env userId prompt w
  = (create_until_lookup env userId prompt ≫= create_after_lookup env) w.
Proof.
  unfold create_until_lookup, create_after_lookup. unfold_calls.
  destruct (authenticated userId) as [uid|]; [|reflexivity].
  destruct prompt as [p|]; [|reflexivity].
  destruct (negb (JsString.truthy (JsString.trim p))); [reflexivity|].
  destruct (fault env FindUser); reflexivity.
Qed.


(** X12. A request answered 200 has raised [totalCreation] of the caller by
    exactly one, whatever the detached task did, a refund included. *)
Theorem create_counts_creation env userId prompt w res w' :
  createUserProject env userId prompt w = (Ok res, w') ->
  status res = 200%nat ->
  exists uid u u',
    authenticated userId = Some uid /\
    user (db w) !! uid = Some u /\
    user (db w') !! uid = Some u' /\
    totalCreation u' = totalCreation u + 1.
Proof.
  intros H Hst.
  destruct (createUserProject_cases env userId prompt w)
    as [(res' & w1 & Hs & Hr) | (res' & j & w1 & w2 & Hs & Hbg & Hr)];
    rewrite Hr in H; simplify_eq;
    destruct (sync_frame _ _ _ _ _ _ Hs)
      as (? & ? & [= <- <-] & _ & _ & _ & _ & _ & Hj).
  - destruct Hj as [Hin _]. now apply not_200 in Hin.
  - destruct Hj as (_ & uid & p & u & Ha & _ & _ & -> & Hu & _ & Hu1 & _).
    destruct (background_frame _ _ _ _ _ Hbg) as (_ & _ & Hme & _).
    simpl in *. exists uid, u.
    destruct Hme as [Heq | (u1 & Hu1' & Heq)]; rewrite Hu1 in *; simplify_eq.
    + eexists. repeat split; try done.
    + eexists. repeat split; try done.
Qed.

(** X13. Whatever is rejected, a request for a project leaves the rows of
    the other users and the other projects as they were, and only appends
    conversation entries and versions, all of the project it creates. *)
Theorem create_isolation env userId prompt w :
  let w' := (createUserProject env userId prompt w).2 in
  (forall uid, authenticated userId <> Some uid ->
               user (db w') !! uid = user (db w) !! uid) /\
  (forall pid, pid <> next_id (db w) ->
               websiteProject (db w') !! pid = websiteProject (db w) !! pid) /\
  (exists es, conversation (db w') = conversation (db w) ++ es /\
              Forall (fun c => c_projectId c = next_id (db w)) es) /\
  (exists vs, version (db w') = version (db w) ++ vs /\
              Forall (fun v => v_projectId v = next_id (db w)) vs).
Proof.
  cbv zeta.
  destruct (createUserProject_cases env userId prompt w)
    as [(res & w1 & Hs & ->) | (res & j & w1 & w2 & Hs & Hbg & ->)]; simpl;
    destruct (sync_frame _ _ _ _ _ _ Hs)
      as (? & ? & [= <- <-] & _ & Hv & Hother & Hproj & Hconv & Hj).
  - repeat split; try done. exists []. now rewrite app_nil_r.
  - destruct Hj as (_ & uid0 & p & u & Ha & _ & _ & -> & _).
    destruct (background_frame _ _ _ _ _ Hbg)
      as (_ & Ho & _ & (es2 & Hc2 & Hf2) & Hp2 & Hv2 & _).
    simpl in *. destruct Hconv as (es1 & Hc1 & Hf1). repeat split.
    + intros uid Hne. rewrite Ho by congruence. now apply Hother.
    + intros pid Hne. rewrite Hp2 by done. now apply Hproj.
    + exists (es1 ++ es2). rewrite Hc2, Hc1, app_assoc. split; [done|].
      now apply Forall_app.
    + destruct Hv2 as [[-> _] | (v & Hvp & -> & _)]; rewrite Hv.
      * exists []. now rewrite app_nil_r.
      * exists [v]. split; [done|]. now constructor.
Qed.

(** The pointers stay right when the projects other than one are left alone,
    versions are only added, and that one project is left alone, or has no
    pointer, or points to a version of its own that is there. *)
Lemma pointers_ok_step (s s' : Store) (pid0 : nat) :
  pointers_ok s ->
  (forall pid, pid <> pid0 ->
               websiteProject s' !! pid = websiteProject s !! pid) ->
  (exists vs, version s' = version s ++ vs) ->
  (websiteProject s' !! pid0 = websiteProject s !! pid0 \/
   (exists p, websiteProject s' !! pid0 = Some p /\
              current_version_index p = None) \/
   (exists p v, websiteProject s' !! pid0
                = Some (set_current (v_code v) (v_id v) p) /\
                v ∈ version s' /\ v_projectId v = pid0)) ->
  pointers_ok s'.
Proof.
  intros Hok Hother (vs & Hvs) Hpid pid p vid Hp Hptr.
  assert (forall q, websiteProject s !! pid = Some q ->
                    current_version_index q = Some vid ->
                    exists v, v ∈ version s' /\ v_id v = vid /\
                              v_projectId v = pid /\
                              current_code q = Some (v_code v)) as Hold.
  { intros q Hq Hqv. destruct (Hok pid q vid Hq Hqv) as (v & Hin & ?).
    exists v. split; [|done]. rewrite Hvs. apply elem_of_app. now left. }
  destruct (decide (pid = pid0)) as [->|Hne].
  - destruct Hpid as [Heq | [(q & Hq & Hnone) | (q & v & Hq & Hin & Hv)]].
    + rewrite Heq in Hp. eauto.
    + rewrite Hq in Hp. simplify_eq.
    + rewrite Hq in Hp. simplify_eq. simpl in Hptr. simplify_eq.
      exists v. auto.
  - rewrite Hother in Hp by done. eauto.
Qed.

(** X14. Whatever is rejected, a request for a project keeps the pointers
    right: the [current_version_index] of every project that has one names a
    version of that project whose code is its [current_code]. *)
Theorem create_keeps_pointers env userId prompt w :
  pointers_ok (db w) ->
  pointers_ok (db (createUserProject env userId prompt w).2).
Proof.
  intros Hok.
  destruct (createUserProject_cases env userId prompt w)
    as [(res & w1 & Hs & ->) | (res & j & w1 & w2 & Hs & Hbg & ->)]; simpl;
    destruct (sync_frame _ _ _ _ _ _ Hs)
      as (? & ? & [= <- <-] & _ & Hv & _ & Hproj & _ & Hj).
  - apply (pointers_ok_step (db w) (db w1) (next_id (db w))); try done.
    + exists []. now rewrite app_nil_r.
    + destruct Hj as (_ & _ & [Heq | (p & uid & Hp)]); [now left|].
      right. left. eauto.
  - destruct Hj as (_ & uid0 & p & u & _ & _ & _ & -> & _ & _ & _ & Hp).
    assert (pointers_ok (db w1)) as Hok1.
    { apply (pointers_ok_step (db w) (db w1) (next_id (db w))); try done.
      - exists []. now rewrite app_nil_r.
      - right. left. eauto. }
    destruct (background_frame _ _ _ _ _ Hbg)
      as (_ & _ & _ & _ & Hp2 & Hv2 & _). simpl in *.
    apply (pointers_ok_step (db w1) (db w2) (next_id (db w))); try done.
    + destruct Hv2 as [[-> _] | (v & _ & -> & _)]; eauto.
      exists []. now rewrite app_nil_r.
    + destruct Hv2 as [[_ Heq] | (v & Hvp & Hver & [Heq | (q & Hq & Hq')])];
        [now left | now left |].
      right. right. exists q, v. split; [done|]. split; [|done].
      rewrite Hver. apply elem_of_app. right. apply list_elem_of_here.
Qed.

Lemma create_keeps_pointers_witness :
  pointers_ok
    (db (createUserProject env_page (Some "alice") (Some prompt0) world0).2).
Proof.
  apply create_keeps_pointers.
  intros pid p vid H. simpl in H. rewrite lookup_empty in H. discriminate.
Defined.

(** X15. When the debit itself is rejected, the answer is 500 with the
    message of the error, which is logged; the project, the user's entry and
    the raised [totalCreation] stay (nothing is rolled back), and no request
    goes to the completion service. *)
Theorem create_debit_rejected env userId p w uid u e :
  authenticated userId = Some uid ->
  JsString.truthy (JsString.trim p) = true ->
  user (db w) !! uid = Some u -> 5 <= credits u ->
  fault env FindUser = None -> fault env CreateProject = None ->
  fault env IncTotalCreation = None -> fault env LogUserPrompt = None ->
  fault env Debit = Some e ->
  let r := createUserProject env userId (Some p) w in
  r.1 = Ok (status_json 500 (Message (err_message e))) /\
  console r.2 = console w ++ [[err_text e]] /\
  ai_calls r.2 = ai_calls w /\
  project_of r.2 (next_id (db w))
  = Some (new_project (project_name p) p uid) /\
  user (db r.2) !! uid = Some (add_totalCreation 1 u) /\
  conversation (db r.2)
  = conversation (db w)
    ++ [entry (S (next_id (db w))) RoleUser p (next_id (db w))].
Proof.
  intros Ha Hp Hu Hc H1 H2 H3 H4 H5. cbv zeta. unfold_calls.
  rewrite Ha, Hp. simpl. rewrite H1. simpl. rewrite Hu. simpl.
  apply Z.ltb_ge in Hc. rewrite Hc. simpl. rewrite H2. simpl.
  rewrite H3. simpl. rewrite Hu. simpl. rewrite H4. simpl.
  rewrite H5. simpl. unfold project_of. simpl.
  rewrite !lookup_insert_eq. done.
Qed.

(** X8. For an authenticated user, a body without [initial_prompt], or with
    [null] or a string of white space only for it, is answered 400 and
    nothing changes. When [req.body] itself is [undefined] the answer is 500
    whoever asks, and when [initial_prompt] is neither nullish nor a string
    it is 500 for an authenticated user; both with the message of the
    [TypeError], which is written to the console, and no change to the
    store. *)
Theorem create_rejects_blank_prompt env userId uid field w :
  authenticated userId = Some uid ->
  match field with
  | Text p => forallb JsString.is_space p = true
  | Nullish => True
  | NotText => False
  end ->
  createUserProject_request env userId (Some field) w
  = (Ok (status_json 400 (Message "initial_prompt is required")), w) /\
  (forall anyone,
     createUserProject_request env anyone None w
     = (Ok (status_json 500
              (Message
                 "Cannot destructure property 'initial_prompt' of 'req.body' as it is undefined.")),
        {| db := db w;
           console :=
             console w
             ++ [["Cannot destructure property 'initial_prompt' of 'req.body' as it is undefined."]];
           ai_calls := ai_calls w |})) /\
  createUserProject_request env userId (Some NotText) w
  = (Ok (status_json 500
           (Message "initial_prompt?.trim is not a function")),
     {| db := db w;
        console := console w ++ [["initial_prompt?.trim is not a function"]];
        ai_calls := ai_calls w |}).
Proof.
  intros Ha Hp. split; [|split].
  - unfold createUserProject_request.
    destruct field as [|p|]; [| |done]; unfold_calls; rewrite Ha; [done|].
    apply JsStringMore.trim_nil in Hp. now rewrite Hp.
  - reflexivity.
  - unfold createUserProject_request. now rewrite Ha.
Qed.

(** ** The other handlers *)

Ltac unfold_calls_x :=
  unfold purchaseCredits, transaction_create, insert_transaction, checkout,
    lift_x, try_catch_x, throw_x, togglePublish, getUserProjects,
    websiteProject_findMany, websiteProject_findOwned, update_project_row,
    await_x;
  unfold_calls; unfold MX_bind, MX_ret.

Ltac unfold_calls_x_in H :=
  unfold purchaseCredits, transaction_create, insert_transaction, checkout,
    lift_x, try_catch_x, throw_x, togglePublish, getUserProjects,
    websiteProject_findMany, websiteProject_findOwned, update_project_row,
    await_x in H;
  unfold_calls_in H; unfold MX_bind, MX_ret in H.

Ltac run_x_in H := unfold_calls_x_in H; simpl in H; repeat run_step H.

(** X17. Without a user identifier, or with the empty string for one, every
    handler answers 401 and changes nothing, [createUserProject] only when
    the request has a body: without one it answers 500 even then, because
    its destructuring comes before its test of the identifier. *)
Theorem unauthenticated_rejected env envx userId field pid body origin w wx :
  userId = None \/ userId = Some "" ->
  getUserCredits env userId w
  = (Ok (status_json 401 (Message "Unauthorized user")), w) /\
  createUserProject_request env userId (Some field) w
  = (Ok (status_json 401 (Message "Unauthorized user")), w) /\
  createUserProject_request env userId None w
  = (Ok (status_json 500
           (Message
              "Cannot destructure property 'initial_prompt' of 'req.body' as it is undefined.")),
     {| db := db w;
        console :=
          console w
          ++ [["Cannot destructure property 'initial_prompt' of 'req.body' as it is undefined."]];
        ai_calls := ai_calls w |}) /\
  getUserProject env userId pid w
  = (Ok (status_json 401 (Message "Unauthorized user")), w) /\
  getUserProjects envx userId w
  = (Ok (status_json_x 401 (Plain (Message "Unauthorized user"))), w) /\
  togglePublish envx userId pid w
  = (Ok (status_json 401 (Message "Unauthorized user")), w) /\
  purchaseCredits_request envx userId body origin wx
  = (Ok (status_json_x 401 (Plain (Message "Unauthorized user"))), wx).
Proof.
  intros [-> | ->]; repeat split; try (now destruct field);
    now destruct body.
Qed.

(** X18. [getUserCredits], [getUserProject] and [getUserProjects] never
    change the store and never call the completion service, whatever they
    are asked and whatever is rejected. *)
Theorem reads_change_nothing env envx userId pid w :
  db (getUserCredits env userId w).2 = db w /\
  db (getUserProject env userId pid w).2 = db w /\
  db (getUserProjects envx userId w).2 = db w /\
  ai_calls (getUserCredits env userId w).2 = ai_calls w /\
  ai_calls (getUserProject env userId pid w).2 = ai_calls w /\
  ai_calls (getUserProjects envx userId w).2 = ai_calls w.
Proof.
  unfold_calls_x.
  destruct (authenticated userId); [|done].
  destruct (fault env CreditsFindUser), (fault env ProjectFind),
    (fault_x envx ProjectsFindMany); done.
Qed.

(** The owner's toggle on the rows: the row of the project is the old one
    with its flag negated, the message tells which way, and the other
    tables, the console and the calls are as they were. *)
Lemma toggle_flips_flag envx userId uid pid w p :
  authenticated userId = Some uid ->
  fault_x envx ToggleFind = None -> fault_x envx ToggleUpdate = None ->
  websiteProject (db w) !! pid = Some p -> p_userId p = uid ->
  exists w',
    togglePublish envx userId pid w
    = (Ok (json (Message (if isPublished p then "Project Unpublished"
                          else "Project Published Successfully"))), w') /\
    websiteProject (db w')
    = <[pid := set_published (negb (isPublished p)) p]> (websiteProject (db w)) /\
    user (db w') = user (db w) /\
    conversation (db w') = conversation (db w) /\
    version (db w') = version (db w) /\
    next_id (db w') = next_id (db w) /\
    console w' = console w /\ ai_calls w' = ai_calls w.
Proof.
  intros Ha H1 H2 Hp Ho. unfold_calls_x. rewrite Ha, H1. simpl.
  rewrite Hp. rewrite decide_True by done. simpl. rewrite H2. simpl.
  rewrite Hp. simpl. eexists. split; [reflexivity|]. done.
Qed.

(** X20. The owner's [togglePublish] negates [isPublished] and says which
    way it went; a second one, with no other request in between, gives the
    other message and sets [isPublished] back. After either, the owner, the
    name, the prompt, the code and the pointer of the project are what they
    were, and so are the users, the entries, the versions and the other
    projects. The column [updatedAt], which the rows leave out, is not
    spoken of. *)
Theorem toggle_twice envx userId uid pid w p :
  authenticated userId = Some uid ->
  fault_x envx ToggleFind = None -> fault_x envx ToggleUpdate = None ->
  websiteProject (db w) !! pid = Some p -> p_userId p = uid ->
  let r1 := togglePublish envx userId pid w in
  let r2 := togglePublish envx userId pid r1.2 in
  r1.1 = Ok (json (Message (if isPublished p then "Project Unpublished"
                            else "Project Published Successfully"))) /\
  r2.1 = Ok (json (Message (if isPublished p
                            then "Project Published Successfully"
                            else "Project Unpublished"))) /\
  exists p1 p2,
    project_of r1.2 pid = Some p1 /\
    project_of r2.2 pid = Some p2 /\
    isPublished p1 = negb (isPublished p) /\
    isPublished p2 = isPublished p /\
    (forall q, q = p1 \/ q = p2 ->
       p_userId q = p_userId p /\
       p_name q = p_name p /\
       p_initial_prompt q = p_initial_prompt p /\
       current_code q = current_code p /\
       current_version_index q = current_version_index p) /\
    (forall w', w' = r1.2 \/ w' = r2.2 ->
       user (db w') = user (db w) /\
       conversation (db w') = conversation (db w) /\
       version (db w') = version (db w) /\
       forall pid', pid' <> pid ->
         websiteProject (db w') !! pid' = websiteProject (db w) !! pid').
Proof.
  intros Ha H1 H2 Hp Ho. cbv zeta.
  destruct (toggle_flips_flag envx userId uid pid w p)
    as (w1 & Hr1 & Hw1 & Hu1 & Hc1 & Hv1 & Hn1 & Hl1 & Hi1); try done.
  rewrite Hr1. simpl.
  destruct (toggle_flips_flag envx userId uid pid w1
              (set_published (negb (isPublished p)) p))
    as (w2 & Hr2 & Hw2 & Hu2 & Hc2 & Hv2 & Hn2 & Hl2 & Hi2); try done.
  { rewrite Hw1. apply lookup_insert_eq. }
  rewrite Hr2. simpl.
  split; [done|]. split; [now destruct (isPublished p)|].
  exists (set_published (negb (isPublished p)) p),
    (set_published (negb (negb (isPublished p)))
       (set_published (negb (isPublished p)) p)).
  unfold project_of. rewrite Hw2, Hw1, !lookup_insert_eq.
  split; [done|]. split; [done|]. split; [done|].
  split; [simpl; apply negb_involutive|].
  split; [intros q [-> | ->]; done|].
  intros w' [-> | ->].
  - rewrite Hu1, Hc1, Hv1, Hw1. repeat split.
    intros pid' Hne. now rewrite lookup_insert_ne.
  - rewrite Hu2, Hc2, Hv2, Hw2, Hu1, Hc1, Hv1, Hw1. repeat split.
    intros pid' Hne. now rewrite !lookup_insert_ne.
Qed.

(** X19. For a project that does not exist or is somebody else's,
    [getUserProject] answers 200 with [project: null] while [togglePublish]
    answers 404; neither changes anything. *)
Theorem not_owned_project env envx userId uid pid w :
  authenticated userId = Some uid ->
  fault env ProjectFind = None -> fault_x envx ToggleFind = None ->
  (forall p, websiteProject (db w) !! pid = Some p -> p_userId p <> uid) ->
  getUserProject env userId pid w = (Ok (json (ProjectBody None)), w) /\
  togglePublish envx userId pid w
  = (Ok (status_json 404 (Message "Project not found")), w).
Proof.
  intros Ha Hf Hfx Hp. unfold_calls_x. rewrite Ha, Hf, Hfx. simpl.
  destruct (websiteProject (db w) !! pid) as [p|]; [|split; reflexivity].
  destruct (decide (p_userId p = uid)) as [Heq|Hne]; [|split; reflexivity].
  now destruct (Hp p).
Qed.

(** X21. Whatever it is asked and whatever is rejected, [togglePublish]
    leaves users, entries, versions and the other projects as they were,
    creates and removes no project, leaves the owner, the name, the prompt,
    the code and the pointer of its project as they were, and keeps the
    pointers right. The column [updatedAt], which the rows leave out, is not
    spoken of. *)
Theorem toggle_keeps_rest envx userId pid w :
  let w' := (togglePublish envx userId pid w).2 in
  user (db w') = user (db w) /\
  conversation (db w') = conversation (db w) /\
  version (db w') = version (db w) /\
  (forall pid', pid' <> pid ->
     websiteProject (db w') !! pid' = websiteProject (db w) !! pid') /\
  (websiteProject (db w) !! pid = None ->
   websiteProject (db w') !! pid = None) /\
  (forall p, websiteProject (db w) !! pid = Some p ->
     exists p',
       websiteProject (db w') !! pid = Some p' /\
       p_userId p' = p_userId p /\
       p_name p' = p_name p /\
       p_initial_prompt p' = p_initial_prompt p /\
       current_code p' = current_code p /\
       current_version_index p' = current_version_index p) /\
  (pointers_ok (db w) -> pointers_ok (db w')).
Proof.
  cbv zeta.
  destruct (togglePublish envx userId pid w) as [o w'] eqn:H.
  run_x_in H; simplify_eq; simpl.
  all: do 3 (split; [reflexivity|]).
  all: split; [intros pid' Hne; rewrite ?lookup_insert_ne by done; reflexivity|].
  all: split; [intros Hnone; congruence|].
  all: split;
    [intros p Hp; simplify_eq;
     first [eexists; split; [apply lookup_insert_eq|]; done
           |eexists; split; [eassumption|]; done]|].
  all: try (intros Hok; exact Hok).
  all: intros Hok pid' q' vid Hq' Hptr; simpl in *.
  all: destruct (decide (pid' = pid)) as [->|Hne];
    [rewrite lookup_insert_eq in Hq'; simplify_eq; simpl in *;
     eapply Hok; eassumption
    |rewrite lookup_insert_ne in Hq' by done; eapply Hok; eassumption].
Qed.

#[local] Instance newer_total at_ : Total (newer at_).
Proof. intros x y. unfold newer. lia. Qed.

#[local] Instance newer_trans at_ : Transitive (newer at_).
Proof. intros x y z. unfold newer. lia. Qed.

(** X22. [getUserProjects] returns exactly the projects of the caller, each
    once, every one at least as recently updated as those after it. *)
Theorem projects_listing envx userId uid w :
  authenticated userId = Some uid ->
  fault_x envx ProjectsFindMany = None ->
  exists l,
    getUserProjects envx userId w = (Ok (json_x (ProjectsBody l)), w) /\
    (forall pid p,
       (pid, p) ∈ l <->
       websiteProject (db w) !! pid = Some p /\ p_userId p = uid) /\
    NoDup (fst <$> l) /\
    StronglySorted (newer (updatedAt envx)) l.
Proof.
  intros Ha Hf. unfold_calls_x. rewrite Ha, Hf. simpl.
  eexists. split; [reflexivity|]. split; [|split].
  - intros pid p. rewrite merge_sort_Permutation. unfold owned_projects.
    rewrite list_elem_of_filter, elem_of_map_to_list. simpl. tauto.
  - rewrite merge_sort_Permutation. unfold owned_projects.
    apply (sublist_NoDup _ (fst <$> map_to_list (websiteProject (db w))));
      [apply NoDup_fst_map_to_list|].
    apply fmap_sublist, sublist_filter.
  - apply StronglySorted_merge_sort; apply _.
Qed.

Lemma projects_listing_witness :
  exists l,
    getUserProjects envx0 (Some "alice") world_three
    = (Ok (json_x (ProjectsBody l)), world_three) /\
    (forall pid p,
       (pid, p) ∈ l <->
       websiteProject (db world_three) !! pid = Some p /\
       p_userId p = "alice") /\
    NoDup (fst <$> l) /\
    StronglySorted (newer (updatedAt envx0)) l.
Proof.
  apply (projects_listing envx0 (Some "alice") "alice" world_three);
    reflexivity.
Defined.

(** The world after a generation that works. *)
Lemma create_completes env userId prompt w0 uid u e code :
  (forall site, fault env site = None) ->
  authenticated userId = Some uid ->
  JsString.truthy (JsString.trim prompt) = true ->
  user (db w0) !! uid = Some u -> 5 <= credits u ->
  ai env (Enhance prompt) = Ok e ->
  ai env (Generate (enhanced_or prompt e)) = Ok code ->
  JsString.truthy (sanitize (default [] code)) = true ->
  let pid := next_id (db w0) in
  let cleaned := sanitize (default [] code) in
  exists w2 v,
    createUserProject env userId (Some prompt) w0
    = (Ok (json (ProjectIdBody pid)), w2) /\
    v_code v = cleaned /\ v_projectId v = pid /\
    version (db w2) = version (db w0) ++ [v] /\
    websiteProject (db w2) !! pid
    = Some (set_current cleaned (v_id v)
              (new_project (project_name prompt) prompt uid)) /\
    exists es,
      conversation (db w2) = conversation (db w0) ++ es /\
      Forall (fun c => c_projectId c = pid) es /\
      map (fun c => (c_role c, c_content c)) es
      = [(RoleUser, prompt);
         (RoleAssistant, msg_enhanced (enhanced_or prompt e));
         (RoleAssistant, msg_start);
         (RoleAssistant, msg_success)].
Proof.
  intros Hf Ha Hp Hu Hc He Hcode Ht pid cleaned.
  destruct (sync_succeeds env userId prompt w0 uid u) as [w1 Hs]; try done.
  destruct (sync_started _ _ _ _ _ _ _ Hs)
    as (uid' & p' & u' & Ha' & Hp' & Hu' & _ & _ & _ & Hb & Hpr & Hv & Hcv & _).
  simplify_eq. apply balance_user in Hb as (u1 & Hu1 & Hcr).
  destruct (generation_completes env
              {| job_userId := uid; job_prompt := p';
                 job_projectId := next_id (db w0) |}
              w1 u1 _ e code Hf Hu1 Hpr He Hcode)
    as (w2 & Hg & _ & _ & Hcase).
  simpl in Hcase. rewrite Ht in Hcase.
  destruct Hcase as (_ & Hver & Hproj & Hconv).
  eexists w2, _. split.
  { eapply createUserProject_run; [exact Hs|]. now apply background_ok. }
  rewrite Hver, Hv, Hproj, Hconv, Hcv, lookup_insert_eq. simpl.
  repeat split; try done.
  eexists. rewrite <- app_assoc. split; [reflexivity|].
  split; [repeat constructor|reflexivity].
Qed.

(** X16. After a generation that works, [getUserProject] by the owner
    returns the project with the sanitised code as its current code, the one
    version its pointer names, and the four entries in order. *)
Theorem create_then_get env userId prompt w0 uid u e code :
  store_wf (db w0) = true ->
  (forall site, fault env site = None) ->
  authenticated userId = Some uid ->
  JsString.truthy (JsString.trim prompt) = true ->
  user (db w0) !! uid = Some u -> 5 <= credits u ->
  ai env (Enhance prompt) = Ok e ->
  ai env (Generate (enhanced_or prompt e)) = Ok code ->
  JsString.truthy (sanitize (default [] code)) = true ->
  let w2 := (createUserProject env userId (Some prompt) w0).2 in
  let cleaned := sanitize (default [] code) in
  exists view v,
    getUserProject env userId (next_id (db w0)) w2
    = (Ok (json (ProjectBody (Some view))), w2) /\
    view_id view = next_id (db w0) /\
    current_code (view_project view) = Some cleaned /\
    current_version_index (view_project view) = Some (v_id v) /\
    view_versions view = [v] /\ v_code v = cleaned /\
    map (fun c => (c_role c, c_content c)) (view_conversation view)
    = [(RoleUser, prompt);
       (RoleAssistant, msg_enhanced (enhanced_or prompt e));
       (RoleAssistant, msg_start);
       (RoleAssistant, msg_success)].
Proof.
  intros Hwf Hf Ha Hp Hu Hc He Hcode Ht. cbv zeta.
  destruct (create_completes env userId prompt w0 uid u e code)
    as (w2 & v & -> & Hvc & Hvp & Hver & Hproj & es & Hconv & Hes & Htr);
    try done.
  destruct (wf_fresh _ Hwf) as [Hnv Hnc]. simpl.
  unfold_calls. rewrite Ha, Hf. simpl. rewrite Hproj. simpl.
  rewrite decide_True by done. do 2 eexists. split; [reflexivity|]. simpl.
  rewrite Hver, Hconv, !filter_app, Hnv, Hnc. simpl.
  rewrite filter_cons_True by done.
  assert (filter (fun c => c_projectId c = next_id (db w0)) es = es) as ->.
  { clear -Hes. induction Hes as [|c es Hc _ IH]; [done|].
    now rewrite filter_cons_True, IH. }
  repeat split; done.
Qed.

Lemma create_then_get_witness :
  exists view v,
    getUserProject env_page (Some "alice") 0 world_done
    = (Ok (json (ProjectBody (Some view))), world_done) /\
    view_id view = 0%nat /\
    current_code (view_project view)
    = Some (JsString.lit "<h1>Portfolio</h1>") /\
    current_version_index (view_project view) = Some (v_id v) /\
    view_versions view = [v] /\
    v_code v = JsString.lit "<h1>Portfolio</h1>" /\
    map (fun c => (c_role c, c_content c)) (view_conversation view)
    = [(RoleUser, prompt0);
       (RoleAssistant, msg_enhanced prompt0);
       (RoleAssistant, msg_start);
       (RoleAssistant, msg_success)].
Proof.
  assert (world_done
          = (createUserProject env_page (Some "alice") (Some prompt0)
               world0).2) as -> by (vm_compute; reflexivity).
  apply (create_then_get env_page (Some "alice") prompt0 world0 "alice" alice
           None (Some page)).
  - reflexivity.
  - intros site. reflexivity.
  - reflexivity.
  - reflexivity.
  - reflexivity.
  - vm_compute. discriminate.
  - reflexivity.
  - reflexivity.
  - reflexivity.
Defined.

(** ** [purchaseCredits] *)

(** X23. For an authenticated user, a body whose [planId] is missing, or
    names neither a plan nor a member every object inherits, is answered 404
    and creates nothing; when [req.body] itself is [undefined] the answer is
    500 with the message of the [TypeError], which is written to the
    console, and still nothing is created. *)
Theorem purchase_unknown_plan envx userId uid planId origin wx :
  authenticated userId = Some uid ->
  match planId with
  | Some k =>
      (k ∉ ["basic"; "pro"; "enterprise"]) /\ (k ∉ object_prototype_names)
  | None => True
  end ->
  purchaseCredits_request envx userId (Some planId) origin wx
  = (Ok (status_json_x 404 (Plain (Message "Plan not found"))), wx) /\
  purchaseCredits_request envx userId None origin wx
  = (Ok (status_json_x 500
           (Plain
              (Message
                 "Cannot destructure property 'planId' of 'req.body' as it is undefined."))),
     {| world :=
          {| db := db (world wx);
             console :=
               console (world wx)
               ++ [["Cannot destructure property 'planId' of 'req.body' as it is undefined."]];
             ai_calls := ai_calls (world wx) |};
        transaction := transaction wx;
        stripe_calls := stripe_calls wx |}).
Proof.
  intros Ha Hp. split.
  - assert (plans_at planId = Undefined) as Hu.
    { destruct planId as [k|]; [|done]. destruct Hp as [Hk Hi].
      unfold plans_at, plans.
      rewrite !not_elem_of_cons in Hk. destruct Hk as (? & ? & ? & _).
      now rewrite !decide_False by done. }
    unfold purchaseCredits_request. unfold_calls_x. now rewrite Ha, Hu.
  - unfold purchaseCredits_request. now rewrite Ha.
Qed.

(** X24. A purchase of a known plan creates exactly one transaction, with
    the amount and the credits of the plan, for the caller, and asks for one
    checkout session priced at 100 times the amount, for quantity 1, carrying
    the identifier of the transaction and expiring 30 minutes from now; the
    users are not touched. *)
Theorem purchase_creates_transaction envx userId uid k plan origin wx u url :
  authenticated userId = Some uid ->
  plans k = Some plan ->
  user (db (world wx)) !! uid = Some u ->
  fault_x envx TransactionCreate = None ->
  (forall rq, stripe_create envx rq = Ok url) ->
  let r := purchaseCredits envx userId (Some k) origin wx in
  let t := {| t_id := next_id (db (world wx)); t_planId := k;
              t_amount := plan_amount plan; t_credits := plan_credits plan;
              t_userId := uid |} in
  r.1 = Ok (json_x (PaymentLink url)) /\
  transaction r.2 = transaction wx ++ [t] /\
  user (db (world r.2)) = user (db (world wx)) /\
  exists rq,
    stripe_calls r.2 = stripe_calls wx ++ [rq] /\
    unit_amount rq = 100 * plan_amount plan /\
    quantity rq = 1 /\
    metadata_transactionId rq = t_id t /\
    expires_at rq = date_now envx / 1000 + 1800.
Proof.
  intros Ha Hp Hu Hf Hs. cbv zeta. unfold_calls_x.
  rewrite Ha. unfold plans_at. rewrite Hp. simpl. rewrite Hf. simpl.
  rewrite Hu. simpl. rewrite Hs. simpl.
  repeat split. eexists. split; [reflexivity|]. simpl.
  repeat split; lia.
Qed.

(** X25. When the payment processor rejects the session, the answer is 500
    with the message of the error, which is logged, and the transaction
    created just before stays. *)
Theorem purchase_session_rejected envx userId uid k plan origin wx u e :
  authenticated userId = Some uid ->
  plans k = Some plan ->
  user (db (world wx)) !! uid = Some u ->
  fault_x envx TransactionCreate = None ->
  (forall rq, stripe_create envx rq = Throw e) ->
  let r := purchaseCredits envx userId (Some k) origin wx in
  r.1 = Ok (status_json_x 500 (Plain (Message (err_message e)))) /\
  transaction r.2
  = transaction wx
    ++ [{| t_id := next_id (db (world wx)); t_planId := k;
           t_amount := plan_amount plan; t_credits := plan_credits plan;
           t_userId := uid |}] /\
  console (world r.2) = console (world wx) ++ [[err_text e]] /\
  user (db (world r.2)) = user (db (world wx)).
Proof.
  intros Ha Hp Hu Hf Hs. cbv zeta. unfold_calls_x.
  rewrite Ha. unfold plans_at. rewrite Hp. simpl. rewrite Hf. simpl.
  rewrite Hu. simpl. rewrite Hs. simpl. done.
Qed.

(** X26. Whatever it is asked and whatever is rejected, [purchaseCredits]
    ends with a response, never changes a user (so never a balance), a
    project, an entry or a version, adds at most one transaction and asks
    for at most one session. *)
Theorem purchase_never_credits envx userId planId origin wx :
  let r := purchaseCredits envx userId planId origin wx in
  (exists res, r.1 = Ok res) /\
  user (db (world r.2)) = user (db (world wx)) /\
  websiteProject (db (world r.2)) = websiteProject (db (world wx)) /\
  conversation (db (world r.2)) = conversation (db (world wx)) /\
  version (db (world r.2)) = version (db (world wx)) /\
  (transaction r.2 = transaction wx \/
   exists t, transaction r.2 = transaction wx ++ [t]) /\
  (length (stripe_calls r.2) <= S (length (stripe_calls wx)))%nat.
Proof.
  cbv zeta.
  destruct (purchaseCredits envx userId planId origin wx) as [o wx'] eqn:H.
  run_x_in H; simplify_eq; simpl.
  all: split; [eauto|]. all: do 4 (split; [reflexivity|]).
  all: split; [eauto | rewrite ?length_app; simpl; lia].
Qed.

Module JsStringFenced.
Import JsString JsStringFacts.

Lemma lead_app_stop a c b :
  c <> backtick -> lead ((a ++ [c]) ++ b) = lead (a ++ [c]).
Proof.
  intros Hc. induction a as [|x a IH]; simpl.
  - rewrite !lead_cons. now destruct (N.eqb_spec c backtick).
  - rewrite !lead_cons. destruct (x =? backtick)%N; [|done].
    f_equal. exact IH.
Qed.

(** A stretch without a fence that ends before a code unit other than a
    backtick is copied as it is. *)
Lemma replace_open_stretch a c b :
  c <> backtick -> no_fence (a ++ [c]) = true ->
  replace_all re_fence_open ((a ++ [c]) ++ b)
  = (a ++ [c]) ++ replace_all re_fence_open b.
Proof.
  intros Hc. induction a as [|x a IH]; intros Hn.
  - simpl. rewrite replace_all_keep; [done|].
    apply fence_open_none. rewrite lead_cons.
    destruct (N.eqb_spec c backtick); [done|lia].
  - change ((x :: a) ++ [c]) with (x :: (a ++ [c])) in *.
    change ((x :: (a ++ [c])) ++ b) with (x :: ((a ++ [c]) ++ b)).
    apply no_fence_cons in Hn as [Hl Hn].
    rewrite replace_all_keep.
    + simpl. f_equal. now apply IH.
    + apply fence_open_none.
      change (x :: (a ++ [c]) ++ b) with (((x :: a) ++ [c]) ++ b).
      now rewrite lead_app_stop.
Qed.

Lemma count_letters lang c rest :
  forallb is_letter lang = true -> is_letter c = false ->
  count_while is_letter (lang ++ c :: rest) = length lang.
Proof.
  intros Hl Hc. induction lang as [|x lang IH]; simpl in *.
  - now rewrite Hc.
  - apply andb_true_iff in Hl as [-> Hl]. f_equal. now apply IH.
Qed.

(** The opening fence goes with its language tag and the newline after
    it. *)
Lemma replace_open_tag lang rest :
  forallb is_letter lang = true ->
  replace_all re_fence_open (fence ++ lang ++ newline :: rest)
  = replace_all re_fence_open rest.
Proof.
  intros Hl.
  assert (re_fence_open (fence ++ lang ++ newline :: rest)
          = Some (S (3 + length lang))) as Hre.
  { unfold fence. simpl. rewrite count_letters by done.
    rewrite drop_app_length. simpl. f_equal. lia. }
  rewrite (replace_all_skip _ _ _ Hre). f_equal.
  unfold fence. simpl.
  replace (lang ++ newline :: rest) with ((lang ++ [newline]) ++ rest)
    by now rewrite <- app_assoc.
  apply drop_app_length'. rewrite length_app. simpl. lia.
Qed.

Lemma lead_snoc a c : c <> backtick -> lead (a ++ [c]) = lead a.
Proof.
  intros Hc. induction a as [|x a IH]; simpl.
  - rewrite lead_cons. now destruct (N.eqb_spec c backtick).
  - rewrite !lead_cons. destruct (x =? backtick)%N; [|done]. now f_equal.
Qed.

Lemma no_fence_snoc a c :
  c <> backtick -> no_fence a = true -> no_fence (a ++ [c]) = true.
Proof.
  intros Hc. induction a as [|x a IH]; intros Hn.
  - simpl. rewrite lead_cons. now destruct (N.eqb_spec c backtick).
  - change ((x :: a) ++ [c]) with (x :: (a ++ [c])).
    apply no_fence_cons in Hn as [Hl Hn]. apply no_fence_cons. split; [|auto].
    change (x :: (a ++ [c])) with ((x :: a) ++ [c]). now rewrite lead_snoc.
Qed.

End JsStringFenced.

(** X5. A clean body wrapped in an opening fence with a language tag of
    letters and a newline, and in a newline and a closing fence, comes back
    as it was. *)
Theorem sanitize_unwraps_fenced (lang body : jsstring) :
  forallb JsString.is_letter lang = true ->
  clean body = true ->
  sanitize (JsString.fence ++ lang ++ JsString.newline :: body
            ++ JsString.newline :: JsString.fence)
  = body.
Proof.
  intros Hl Hb. unfold clean in Hb.
  apply andb_true_iff in Hb as [[Hf Hs]%andb_true_iff He].
  apply negb_true_iff in Hs, He.
  rewrite sanitize_trim_replace.
  rewrite JsStringFenced.replace_open_tag by done.
  rewrite cons_middle, app_assoc.
  rewrite JsStringFenced.replace_open_stretch
    by (try done; now apply JsStringFenced.no_fence_snoc).
  change (JsString.replace_all JsString.re_fence_open JsString.fence)
    with (@nil N).
  rewrite app_nil_r.
  destruct (decide (body = [])) as [->|Hne]; [reflexivity|].
  unfold JsString.trim, JsString.trimStart.
  rewrite (JsStringFacts.drop_while_id _ (body ++ [JsString.newline])).
  - unfold JsString.trimEnd. rewrite rev_app_distr. simpl.
    rewrite JsStringFacts.drop_while_id; [apply rev_involutive|].
    unfold JsString.ends_space, JsString.starts_space in He.
    destruct (rev body); [done|exact He].
  - unfold JsString.starts_space in Hs.
    destruct body; [done|exact Hs].
Qed.

Lemma sanitize_unwraps_fenced_witness :
  sanitize (JsString.fence ++ JsString.lit "html" ++ JsString.newline
            :: JsString.lit "<h1>Portfolio</h1>"
            ++ JsString.newline :: JsString.fence)
  = JsString.lit "<h1>Portfolio</h1>".
Proof. apply sanitize_unwraps_fenced; reflexivity. Defined.

(** ** The further properties on the scenario *)

Lemma create_rejects_blank_prompt_witness :
  createUserProject_request env_page (Some "alice")
    (Some (Text [32%N; 9%N; 10%N; 160%N])) world0
  = (Ok (status_json 400 (Message "initial_prompt is required")), world0) /\
  (createUserProject_request env_page None None world0).1
  = Ok (status_json 500
          (Message
             "Cannot destructure property 'initial_prompt' of 'req.body' as it is undefined.")).
Proof.
  destruct (create_rejects_blank_prompt env_page (Some "alice") "alice"
              (Text [32%N; 9%N; 10%N; 160%N]) world0 eq_refl eq_refl)
    as (H1 & H2 & _).
  split; [exact H1|]. now rewrite (H2 None).
Defined.

Lemma create_error_costs_nothing_witness :
  (forall uid, balance world_bob uid = balance world_bob uid) /\
  ai_calls world_bob = ai_calls world_bob /\
  version (db world_bob) = version (db world_bob).
Proof.
  apply (create_error_costs_nothing env_page (Some "bob") (Some prompt0)
           world_bob
           (status_json 403 (Message "Add credits to create more projects"))
           world_bob).
  - vm_compute. reflexivity.
  - simpl. lia.
Defined.


Lemma create_counts_creation_witness :
  exists uid u u',
    authenticated (Some "alice") = Some uid /\
    user (db world0) !! uid = Some u /\
    user (db (world2 env_enhance_down)) !! uid = Some u' /\
    totalCreation u' = totalCreation u + 1.
Proof.
  apply (create_counts_creation env_enhance_down (Some "alice") (Some prompt0)
           world0 (json (ProjectIdBody 0)) (world2 env_enhance_down)).
  - vm_compute. reflexivity.
  - reflexivity.
Defined.

Lemma create_isolation_witness :
  user (db (createUserProject env_page (Some "bob") (Some prompt0)
              world_bob).2) !! "alice"
  = user (db world_bob) !! "alice".
Proof.
  apply (proj1 (create_isolation env_page (Some "bob") (Some prompt0)
                  world_bob)).
  simpl. discriminate.
Defined.

Lemma create_debit_rejected_witness :
  let r := createUserProject (env_of [(Debit, db_down)] page) (Some "alice")
             (Some prompt0) world0 in
  r.1 = Ok (status_json 500 (Message (err_message db_down))) /\
  console r.2 = console world0 ++ [[err_text db_down]] /\
  ai_calls r.2 = ai_calls world0 /\
  project_of r.2 (next_id (db world0))
  = Some (new_project (project_name prompt0) prompt0 "alice") /\
  user (db r.2) !! "alice" = Some (add_totalCreation 1 alice) /\
  conversation (db r.2)
  = conversation (db world0)
    ++ [entry (S (next_id (db world0))) RoleUser prompt0
          (next_id (db world0))].
Proof.
  apply (create_debit_rejected (env_of [(Debit, db_down)] page)
           (Some "alice") prompt0 world0 "alice" alice db_down);
    try reflexivity.
  vm_compute. discriminate.
Defined.

Lemma unauthenticated_rejected_witness :
  createUserProject_request env_page (Some "") (Some (Text prompt0)) world0
  = (Ok (status_json 401 (Message "Unauthorized user")), world0) /\
  purchaseCredits_request envx0 (Some "") None None worldx0
  = (Ok (status_json_x 401 (Plain (Message "Unauthorized user"))), worldx0).
Proof.
  destruct (unauthenticated_rejected env_page envx0 (Some "") (Text prompt0)
              0%nat None None world0 worldx0)
    as (_ & H2 & _ & _ & _ & _ & H7); [now right|].
  split; [exact H2 | exact H7].
Defined.

Lemma not_owned_project_witness :
  getUserProject env_page (Some "bob") 0 world_three
  = (Ok (json (ProjectBody None)), world_three) /\
  togglePublish envx0 (Some "bob") 0 world_three
  = (Ok (status_json 404 (Message "Project not found")), world_three).
Proof.
  apply (not_owned_project env_page envx0 (Some "bob") "bob" 0 world_three);
    try reflexivity.
  intros p Hp. vm_compute in Hp. simplify_eq. discriminate.
Defined.

Lemma toggle_twice_witness :
  let r1 := togglePublish envx0 (Some "alice") 0 world_three in
  let r2 := togglePublish envx0 (Some "alice") 0 r1.2 in
  r1.1 = Ok (json (Message "Project Published Successfully")) /\
  r2.1 = Ok (json (Message "Project Unpublished")).
Proof.
  assert (websiteProject (db world_three) !! 0%nat
          = Some (set_current (JsString.lit "<h1>Portfolio</h1>") 4
                    (new_project (project_name prompt0) prompt0 "alice")))
    as Hp by (vm_compute; reflexivity).
  destruct (toggle_twice envx0 (Some "alice") "alice" 0 world_three _
              eq_refl eq_refl eq_refl Hp eq_refl)
    as (H1 & H2 & _).
  split; [exact H1 | exact H2].
Defined.

Lemma toggle_keeps_rest_witness :
  user (db (togglePublish envx0 (Some "alice") 0 world_three).2)
  = user (db world_three) /\
  version (db (togglePublish envx0 (Some "alice") 0 world_three).2)
  = version (db world_three).
Proof.
  destruct (toggle_keeps_rest envx0 (Some "alice") 0 world_three)
    as (H1 & _ & H3 & _).
  split; [exact H1 | exact H3].
Defined.

Lemma purchase_unknown_plan_witness :
  purchaseCredits_request envx0 (Some "alice") (Some (Some "gold")) None
    worldx0
  = (Ok (status_json_x 404 (Plain (Message "Plan not found"))), worldx0) /\
  (purchaseCredits_request envx0 (Some "alice") None None worldx0).1
  = Ok (status_json_x 500
          (Plain
             (Message
                "Cannot destructure property 'planId' of 'req.body' as it is undefined."))).
Proof.
  assert ((("gold" : string) ∉ ["basic"; "pro"; "enterprise"])
          /\ (("gold" : string) ∉ object_prototype_names)) as Hp.
  { split; repeat (apply not_elem_of_cons; split; [discriminate|]);
      apply not_elem_of_nil. }
  destruct (purchase_unknown_plan envx0 (Some "alice") "alice" (Some "gold")
              None worldx0 eq_refl Hp) as (H1 & H2).
  split; [exact H1|]. now rewrite H2.
Defined.

Lemma purchase_creates_transaction_witness :
  let r := purchaseCredits envx0 (Some "alice") (Some "pro")
             (Some "http://localhost:5173") worldx0 in
  r.1 = Ok (json_x (PaymentLink (Some "https://checkout.example/s1"))) /\
  transaction r.2
  = [] ++ [{| t_id := 9; t_planId := "pro"; t_amount := 19;
              t_credits := 400; t_userId := "alice" |}] /\
  user (db (world r.2)) = user (db (world worldx0)) /\
  exists rq,
    stripe_calls r.2 = [] ++ [rq] /\
    unit_amount rq = 100 * 19 /\
    quantity rq = 1 /\
    metadata_transactionId rq = 9%nat /\
    expires_at rq = date_now envx0 / 1000 + 1800.
Proof.
  apply (purchase_creates_transaction envx0 (Some "alice") "alice" "pro"
           {| plan_credits := 400; plan_amount := 19 |}
           (Some "http://localhost:5173") worldx0
           {| credits := 5; totalCreation := 1 |}
           (Some "https://checkout.example/s1")); reflexivity.
Defined.

Lemma purchase_session_rejected_witness :
  let r := purchaseCredits envx_stripe_down (Some "alice") (Some "basic")
             None worldx0 in
  r.1 = Ok (status_json_x 500 (Plain (Message (err_message econnreset)))) /\
  transaction r.2
  = [] ++ [{| t_id := 9; t_planId := "basic"; t_amount := 5;
              t_credits := 100; t_userId := "alice" |}] /\
  console (world r.2) = [] ++ [[err_text econnreset]] /\
  user (db (world r.2)) = user (db (world worldx0)).
Proof.
  apply (purchase_session_rejected envx_stripe_down (Some "alice") "alice"
           "basic" {| plan_credits := 100; plan_amount := 5 |} None worldx0
           {| credits := 5; totalCreation := 1 |} econnreset);
    reflexivity.
Defined.
